(** * IOTADeFiTool: a shallow embedding of backend/agent/tools/iota_defi_tool.py

    The tool holds a mock market snapshot and mock user portfolios and
    answers five queries over them.  The embedding follows the Python
    source method by method:

    - Python floats are modelled by exact rationals ([Q]), extended with
      the two infinities and NaN where the source can produce or receive
      them ([pyfloat]).  Every stored literal denotes the rational it is
      written as; [round] is round-half-to-even on the exact value.
    - A Python call either returns a value or raises: [result].
      [try ... except C] only catches exceptions that are instances of [C].
    - A method receives [self] and hands it back next to its result, so
      that "the stored data is not mutated" is a statement about the
      second component.
    - Values that reach the tool dynamically typed (the [assets] and
      [min_apy] arguments, which may be lists, numbers or text to decode)
      are [pyval]s.
    - The five methods are declared [async] but never await: they are
      modelled as ordinary calls.  The schema decorators describe the
      call signatures to the agent framework and compute nothing. *)

From Stdlib Require Import QArith Qround Qabs Lqa.
From stdpp Require Import strings gmap list.

(** ** Python values *)

Inductive pyfloat :=
| Finite (q : Q)
| PosInf
| NegInf
| NaN.

#[warnings="-register-all"] Inductive pyval :=
| PNone
| PBool (b : bool)
| PInt (z : Z)
| PFloat (x : pyfloat)
| PStr (s : string)
| PList (l : list pyval)
| PDict (d : list (string * pyval)).

(** [type(v).__name__], as it appears in CPython's TypeError messages. *)
Definition type_name (v : pyval) : string :=
  match v with
  | PNone => "NoneType"
  | PBool _ => "bool"
  | PInt _ => "int"
  | PFloat _ => "float"
  | PStr _ => "str"
  | PList _ => "list"
  | PDict _ => "dict"
  end.

(** Truth value of an object: [if v] / [not v]. *)
Definition truthy (v : pyval) : bool :=
  match v with
  | PNone => false
  | PBool b => b
  | PInt z => negb (z =? 0)%Z
  | PFloat (Finite q) => negb (Qeq_bool q 0)
  | PFloat _ => true
  | PStr s => negb (String.eqb s EmptyString)
  | PList l => match l with [] => false | _ => true end
  | PDict d => match d with [] => false | _ => true end
  end.

(** ** Exceptions and the result of a call *)

Inductive exn_class :=
| KeyboardInterrupt
| SystemExit
| JSONDecodeError
| ValueError
| TypeError
| KeyError
| ZeroDivisionError
| StopIteration
| RecursionError
| MemoryError.

(** An exception object: its class and [str(e)]. *)
Record exn := mk_exn { exn_type : exn_class; exn_str : string }.

(** [isinstance(e, Exception)]: everything but the two classes that derive
    from BaseException directly. *)
Definition isinstance_Exception (e : exn) : bool :=
  match exn_type e with
  | KeyboardInterrupt | SystemExit => false
  | _ => true
  end.

(** [isinstance(e, json.JSONDecodeError)]. *)
Definition isinstance_JSONDecodeError (e : exn) : bool :=
  match exn_type e with
  | JSONDecodeError => true
  | _ => false
  end.

Inductive result (A : Type) :=
| Ok (a : A)
| Raise (e : exn).
Arguments Ok {A} a.
Arguments Raise {A} e.

(** Sequencing: the first call that raises ends the computation. *)
Definition bind {A B} (m : result A) (k : A → result B) : result B :=
  match m with
  | Ok a => k a
  | Raise e => Raise e
  end.

Notation "'let*' x ':=' m 'in' k" := (bind m (λ x, k))
  (at level 10, x name, m at level 100, k at level 200, only parsing).

(** [try: body  except C as e: handler(e)] where [catches] decides
    [isinstance(e, C)]. *)
Definition try_except {A} (body : result A) (catches : exn → bool)
    (handler : exn → result A) : result A :=
  match body with
  | Ok a => Ok a
  | Raise e => if catches e then handler e else Raise e
  end.

(** A list comprehension [[x for x in l if p(x)]] whose condition may
    raise: elements are tested in order, the first exception wins, and
    nothing is evaluated for an empty [l]. *)
Fixpoint filterM {A} (p : A → result bool) (l : list A) : result (list A) :=
  match l with
  | [] => Ok []
  | x :: l' =>
      let* b := p x in
      let* r := filterM p l' in
      Ok (if b then x :: r else r)
  end.

(** A [for] loop that updates an accumulator and whose body may raise. *)
Fixpoint foldM {A B} (f : A → B → result A) (a : A) (l : list B) : result A :=
  match l with
  | [] => Ok a
  | x :: l' =>
      let* a' := f a x in
      foldM f a' l'
  end.

(** Modelled from the spec: [ToolResult], [success_response] and
    [fail_response] come from agentpress.tool, which is not part of the
    source tree.  Section 6: "a success envelope carrying a result payload,
    or a failure envelope carrying a human-readable message". *)
Inductive ToolResult (A : Type) :=
| success_response (data : A)
| fail_response (msg : string).
Arguments success_response {A} data.
Arguments fail_response {A} msg.

(** ** What the interpreter and its library provide

    [json.loads], [float] on text and [repr] are not the tool's code; the
    embedding is parametric in them.  [json.loads] raises
    [JSONDecodeError] on malformed text and may fail otherwise (deep
    nesting exhausts the recursion limit); whatever it raises is an
    [Exception]. *)
Class PyRuntime := {
  json_loads : string → result pyval;
  float_of_str : string → option pyfloat;
  py_repr : pyval → string;
  json_loads_raises :
    ∀ s e, json_loads s = Raise e → isinstance_Exception e = true
}.

Section Builtins.
Context `{PyRuntime}.

(** [str(v)], as used by an f-string field [{v}]. *)
Definition py_str (v : pyval) : string :=
  match v with
  | PStr s => s
  | _ => py_repr v
  end.

(** [float(v)]. *)
Definition py_float (v : pyval) : result pyfloat :=
  match v with
  | PInt z => Ok (Finite (inject_Z z))
  | PBool b => Ok (Finite (if b then 1 else 0))
  | PFloat x => Ok x
  | PStr s =>
      match float_of_str s with
      | Some x => Ok x
      | None =>
          Raise (mk_exn ValueError
                   ("could not convert string to float: " +:+ py_repr (PStr s)))
      end
  | _ =>
      Raise (mk_exn TypeError
               ("float() argument must be a string or a real number, not '"
                  +:+ type_name v +:+ "'"))
  end.

End Builtins.

(** [x >= y] on floats. *)
Definition float_ge (x y : pyfloat) : bool :=
  match x, y with
  | NaN, _ | _, NaN => false
  | PosInf, _ => true
  | _, NegInf => true
  | Finite a, Finite b => Qle_bool b a
  | Finite _, PosInf => false
  | NegInf, _ => false
  end.

(** [needle in hay] for two strings: substring test. *)
Fixpoint py_str_contains (needle hay : string) : bool :=
  String.prefix needle hay ||
  match hay with
  | EmptyString => false
  | String _ hay' => py_str_contains needle hay'
  end.

(** [s in container] for a string [s]. *)
Definition py_in (s : string) (container : pyval) : result bool :=
  match container with
  | PList l =>
      Ok (existsb (λ v, match v with PStr t => String.eqb s t | _ => false end) l)
  | PStr t => Ok (py_str_contains s t)
  | PDict d => Ok (existsb (λ kv, String.eqb s kv.1) d)
  | v =>
      Raise (mk_exn TypeError
               ("argument of type '" +:+ type_name v +:+ "' is not iterable"))
  end.

(** [iter(v)]: the elements a [for] clause ranges over. *)
Definition py_iter (v : pyval) : result (list pyval) :=
  match v with
  | PList l => Ok l
  | PStr s => Ok ((λ c, PStr (String c EmptyString)) <$> String.list_ascii_of_string s)
  | PDict d => Ok ((λ kv, PStr kv.1) <$> d)
  | v =>
      Raise (mk_exn TypeError ("'" +:+ type_name v +:+ "' object is not iterable"))
  end.

(** [v in l] where [l] is a list of strings. *)
Definition py_in_strs (v : pyval) (l : list string) : bool :=
  match v with
  | PStr s => bool_decide (s ∈ l)
  | _ => false
  end.

(** [sum(...)] over numbers: left to right from 0. *)
Definition py_sum (l : list Q) : Q := foldl Qplus 0%Q l.

(** [round(x)]: nearest integer, ties to the even one. *)
Definition py_round (x : Q) : Z :=
  let f := Qfloor x in
  match (x - inject_Z f ?= 1 # 2)%Q with
  | Lt => f
  | Gt => (f + 1)%Z
  | Eq => if Z.even f then f else (f + 1)%Z
  end.

(** [round(x, 2)] on a finite number: a multiple of 1/100. *)
Definition py_round2 (x : Q) : Q := (py_round (x * 100) # 100)%Q.

(** [round(x, 2)] on a float: the infinities and NaN are returned as is. *)
Definition py_round2_float (x : pyfloat) : pyfloat :=
  match x with
  | Finite q => Finite (py_round2 q)
  | _ => x
  end.

(** Insertion-ordered dictionaries with string keys. *)
Definition dict (V : Type) := list (string * V).

Fixpoint dict_lookup {V} (d : dict V) (k : string) : option V :=
  match d with
  | [] => None
  | (k', v) :: d' => if String.eqb k k' then Some v else dict_lookup d' k
  end.

(** [d[k]]. *)
Definition dict_getitem `{PyRuntime} {V} (d : dict V) (k : string) : result V :=
  match dict_lookup d k with
  | Some v => Ok v
  | None => Raise (mk_exn KeyError (py_repr (PStr k)))
  end.

(** [d[k] = v] for a key that may or may not be present. *)
Fixpoint dict_setitem {V} (d : dict V) (k : string) (v : V) : dict V :=
  match d with
  | [] => [(k, v)]
  | (k', v') :: d' =>
      if String.eqb k k' then (k', v) :: d' else (k', v') :: dict_setitem d' k v
  end.

(** [max(d, key=d.get)] on a dictionary with integer values: the keys are
    scanned in insertion order and the running best is replaced only by a
    strictly larger value, so the first key with the largest value wins. *)
Definition py_max_key (d : dict Z) : option string :=
  match d with
  | [] => None
  | kv :: d' =>
      Some (foldl (λ best kv', if (kv'.2 >? best.2)%Z then kv' else best) kv d').1
  end.

(** [x < y] and [x > y] on finite numbers. *)
Definition Qlt_bool (x y : Q) : bool :=
  match (x ?= y)%Q with
  | Lt => true
  | _ => false
  end.

Definition Qgt_bool (x y : Q) : bool := Qlt_bool y x.

(** ** Data model: the dictionaries built in [__init__] *)

Module Asset.
Record t := mk {
  symbol : string;
  price_usd : Q;
  change_24h : Q;
  market_cap_usd : Q
}.
End Asset.

Module LendingPool.
Record t := mk {
  id : string;
  name : string;
  total_deposits : Q;
  apy : Q;
  utilization_rate : Q;
  collateral_ratio : Q;
  assets : list string
}.
End LendingPool.

Module RiskMetrics.
Record t := mk {
  market_volatility : Q;
  liquidation_risk : Q;
  protocol_health : Q
}.
End RiskMetrics.

Module MarketData.
Record t := mk {
  assets : list Asset.t;
  lending_pools : list LendingPool.t;
  risk_metrics : RiskMetrics.t
}.
End MarketData.

Module LendingPosition.
Record t := mk {
  pool_id : string;
  deposited : Q;
  asset : string;
  apy : Q;
  deposit_date : string
}.
End LendingPosition.

Module Collateral.
Record t := mk {
  asset : string;
  amount : Q;
  ratio : Q
}.
End Collateral.

(** The ["collateral"] key of a borrowing position is tested with [in]
    before it is read: an optional field. *)
Module BorrowingPosition.
Record t := mk {
  pool_id : string;
  borrowed : Q;
  asset : string;
  apr : Q;
  borrow_date : string;
  collateral : option Collateral.t
}.
End BorrowingPosition.

(** [wallet_balance] is a dictionary from symbol to amount, kept with its
    insertion order because [.items()] iterates it. *)
Module UserPortfolio.
Record t := mk {
  wallet_balance : dict Q;
  lending_positions : list LendingPosition.t;
  borrowing_positions : list BorrowingPosition.t
}.
End UserPortfolio.

(** ** Result payloads *)

(** The dictionary returned by [get_risk_assessment]: it carries the global
    metrics on the market path and the pool on the pool path. *)
Inductive RiskAnalysis :=
| MarketAnalysis (metrics : RiskMetrics.t) (assessment : string)
    (recommendations : list string)
| PoolAnalysis (pool : LendingPool.t) (assessment : string)
    (recommendations : list string).

Module Metrics.
Record t := mk {
  total_wallet_value_usd : Q;
  total_lending_value_usd : Q;
  total_borrowing_value_usd : Q;
  total_collateral_value_usd : Q;
  net_position_usd : Q;
  health_factor : pyfloat
}.
End Metrics.

(** [{**portfolio, "metrics": {...}}]: a new dictionary with the entries of
    the stored portfolio and one more key. *)
Module PortfolioWithMetrics.
Record t := mk {
  wallet_balance : dict Q;
  lending_positions : list LendingPosition.t;
  borrowing_positions : list BorrowingPosition.t;
  metrics : Metrics.t
}.
End PortfolioWithMetrics.

Module Strategy.
Record t := mk {
  name : string;
  description : string
}.
End Strategy.

Module Opportunity.
Record t := mk {
  type : string;
  name : string;
  description : string;
  expected_return : string;
  risk_level : string
}.
End Opportunity.

Module RebalancingAction.
Record t := mk {
  action : string;
  description : string;
  reasoning : string
}.
End RebalancingAction.

Module RebalancingAdvice.
Record t := mk {
  summary : string;
  actions : list RebalancingAction.t
}.
End RebalancingAdvice.

Module RiskRecommendation.
Record t := mk {
  priority : string;
  action : string;
  description : string;
  reasoning : string
}.
End RiskRecommendation.

Module RiskManagementAdvice.
Record t := mk {
  current_health : string;
  recommendations : list RiskRecommendation.t
}.
End RiskManagementAdvice.

Module PortfolioSpecific.
Record t := mk {
  rebalancing : RebalancingAdvice.t;
  risk_management : RiskManagementAdvice.t
}.
End PortfolioSpecific.

(** The [recommendations] dictionary; the ["portfolio_specific"] key is
    only set when a portfolio was loaded. *)
Module Recommendations.
Record t := mk {
  asset_allocation : dict Z;
  strategies : list Strategy.t;
  specific_opportunities : list Opportunity.t;
  portfolio_specific : option PortfolioSpecific.t
}.
End Recommendations.

(** ** The tool *)

Record IOTADeFiTool := mk_tool {
  iota_node_url : string;
  iota_explorer_url : string;
  market_data : MarketData.t;
  user_portfolios : gmap string UserPortfolio.t
}.

(** The two mock lending pools of [__init__]. *)
Definition stored_pool_1 : LendingPool.t :=
  LendingPool.mk "pool_1" "IOTA Stable Pool" 2500000 4.52 68.3 150
    ["IOTA"; "USDT"; "USDC"].

Definition stored_pool_2 : LendingPool.t :=
  LendingPool.mk "pool_2" "IOTA High Yield" 1200000 8.76 82.1 200
    ["IOTA"; "BTC"; "ETH"].

(** The mock market snapshot of [__init__]. *)
Definition stored_market_data : MarketData.t :=
  MarketData.mk
    [ Asset.mk "IOTA" 0.1452 2.34 403782401;
      Asset.mk "BTC" 63245.78 (-1.23) 1234567890123;
      Asset.mk "ETH" 3071.45 0.87 369123456789 ]
    [ stored_pool_1; stored_pool_2 ]
    (RiskMetrics.mk 0.42 0.31 0.89).

(** The mock portfolios of [__init__]. *)
Definition stored_user_portfolios : gmap string UserPortfolio.t :=
  {[ "user_123" :=
       UserPortfolio.mk
         [("IOTA", 10000%Q); ("USDT", 5000%Q)]
         [ LendingPosition.mk "pool_1" 4000 "IOTA" 4.52 "2023-10-15" ]
         [ BorrowingPosition.mk "pool_2" 2000 "USDT" 5.67 "2023-11-01"
             (Some (Collateral.mk "IOTA" 6000 175)) ] ]}.

(** [IOTADeFiTool.__init__]: the two URLs come from the process
    environment ([os.environ.get] with a default), the rest is fixed. *)
Definition __init__ (environ : gmap string string) : IOTADeFiTool :=
  mk_tool
    (default "https://api.testnet.iota.cafe" (environ !! "IOTA_NODE_URL"))
    (default "https://explorer.rebased.iota.org/?network=testnet"
       (environ !! "IOTA_EXPLORER_URL"))
    stored_market_data
    stored_user_portfolios.

(** A method call: the value returned or the exception raised, and [self]
    after the call. *)
Definition method (A : Type) : Type := IOTADeFiTool → result A * IOTADeFiTool.

Section Tool.
Context `{PyRuntime}.

(** The head shared by [get_market_data] and [get_lending_pools]:
[[
    if isinstance(assets, str):
        try:
            assets = json.loads(assets)
        except json.JSONDecodeError:
            return self.fail_response("Invalid JSON format for assets parameter.")
]]
    [k] is the rest of the method body, run on the decoded value. *)
Definition with_parsed_assets {A} (assets : pyval)
    (k : pyval → result (ToolResult A)) : result (ToolResult A) :=
  match assets with
  | PStr s =>
      match json_loads s with
      | Ok v => k v
      | Raise e =>
          if isinstance_JSONDecodeError e
          then Ok (fail_response "Invalid JSON format for assets parameter.")
          else Raise e
      end
  | _ => k assets
  end.

(** The body of [get_market_data] inside its [try]. *)
Definition get_market_data_body (self : IOTADeFiTool) (assets : pyval)
    : result (ToolResult (list Asset.t)) :=
  with_parsed_assets assets (λ assets,
    if negb (truthy assets)
    then Ok (success_response (MarketData.assets (market_data self)))
    else
      let* filtered_assets :=
        filterM (λ asset, py_in (Asset.symbol asset) assets)
          (MarketData.assets (market_data self)) in
      match filtered_assets with
      | [] => Ok (fail_response ("No data found for assets: " +:+ py_str assets))
      | _ => Ok (success_response filtered_assets)
      end).

Definition get_market_data (assets : pyval) : method (ToolResult (list Asset.t)) :=
  λ self,
    (try_except (get_market_data_body self assets) isinstance_Exception
       (λ e, Ok (fail_response ("Error getting market data: " +:+ exn_str e))),
     self).

(** [[pool for pool in pools if pool["apy"] >= float(min_apy)]]. *)
Definition pools_with_min_apy (min_apy : pyval) (pools : list LendingPool.t)
    : result (list LendingPool.t) :=
  filterM (λ pool,
      let* m := py_float min_apy in
      Ok (float_ge (Finite (LendingPool.apy pool)) m))
    pools.

(** [[pool for pool in pools
      if any(asset in pool["assets"] for asset in assets)]]. *)
Definition pools_with_assets (assets : pyval) (pools : list LendingPool.t)
    : result (list LendingPool.t) :=
  filterM (λ pool,
      let* requested := py_iter assets in
      Ok (existsb (λ asset, py_in_strs asset (LendingPool.assets pool)) requested))
    pools.

(** The body of [get_lending_pools] inside its [try]. *)
Definition get_lending_pools_body (self : IOTADeFiTool) (min_apy assets : pyval)
    : result (ToolResult (list LendingPool.t)) :=
  with_parsed_assets assets (λ assets,
    let pools := MarketData.lending_pools (market_data self) in
    let* pools :=
      match min_apy with
      | PNone => Ok pools
      | _ => pools_with_min_apy min_apy pools
      end in
    let* pools :=
      if truthy assets then pools_with_assets assets pools else Ok pools in
    match pools with
    | [] =>
        let filters := [] in
        let filters :=
          match min_apy with
          | PNone => filters
          | _ => filters ++ ["min_apy=" +:+ py_str min_apy]
          end in
        let filters :=
          if truthy assets then filters ++ ["assets=" +:+ py_str assets]
          else filters in
        let filter_str := String.concat ", " filters in
        Ok (fail_response ("No lending pools found with filters: " +:+ filter_str))
    | _ => Ok (success_response pools)
    end).

Definition get_lending_pools (min_apy assets : pyval)
    : method (ToolResult (list LendingPool.t)) :=
  λ self,
    (try_except (get_lending_pools_body self min_apy assets) isinstance_Exception
       (λ e, Ok (fail_response ("Error getting lending pools: " +:+ exn_str e))),
     self).

(** The body of [get_risk_assessment] inside its [try].  [not pool_id]
    holds for [None] and for the empty string. *)
Definition get_risk_assessment_body (self : IOTADeFiTool) (pool_id : option string)
    : result (ToolResult RiskAnalysis) :=
  match pool_id with
  | None | Some EmptyString =>
      let risk_metrics := MarketData.risk_metrics (market_data self) in
      let market_risk :=
        if Qlt_bool (RiskMetrics.market_volatility risk_metrics) 0.3 then "low"
        else if Qlt_bool (RiskMetrics.market_volatility risk_metrics) 0.7
        then "moderate" else "high" in
      let liquidation_risk :=
        if Qlt_bool (RiskMetrics.liquidation_risk risk_metrics) 0.3 then "low"
        else if Qlt_bool (RiskMetrics.liquidation_risk risk_metrics) 0.7
        then "moderate" else "high" in
      let protocol_health :=
        if Qgt_bool (RiskMetrics.protocol_health risk_metrics) 0.8 then "excellent"
        else if Qgt_bool (RiskMetrics.protocol_health risk_metrics) 0.5
        then "good" else "concerning" in
      let analysis :=
        MarketAnalysis risk_metrics
          ("The current market presents " +:+ market_risk +:+ " volatility with "
             +:+ liquidation_risk +:+ " liquidation risk. Overall protocol health is "
             +:+ protocol_health +:+ ".")
          [ "Maintain appropriate collateralization ratios above 150%";
            "Diversify lending positions across multiple pools";
            "Consider hedging strategies in high volatility periods" ] in
      Ok (success_response analysis)
  | Some pool_id =>
      match
        List.find (λ p, String.eqb (LendingPool.id p) pool_id)
          (MarketData.lending_pools (market_data self))
      with
      | None =>
          Ok (fail_response ("Lending pool with ID '" +:+ pool_id +:+ "' not found"))
      | Some pool =>
          let utilization := LendingPool.utilization_rate pool in
          let collateral := LendingPool.collateral_ratio pool in
          let utilization_risk :=
            if Qlt_bool utilization 60 then "low"
            else if Qlt_bool utilization 80 then "moderate" else "high" in
          let collateral_safety :=
            if Qgt_bool collateral 180 then "high"
            else if Qgt_bool collateral 140 then "moderate" else "low" in
          let analysis :=
            PoolAnalysis pool
              ("Pool '" +:+ LendingPool.name pool +:+ "' has " +:+ utilization_risk
                 +:+ " utilization risk and " +:+ collateral_safety
                 +:+ " collateral safety.")
              [ if Qgt_bool utilization 80
                then "Consider depositing more assets to earn higher yields"
                else "This pool has capacity for more deposits";
                if Qgt_bool utilization 80
                then "Maintain higher collateral ratios due to high utilization"
                else "Standard collateral ratios are likely sufficient" ] in
          Ok (success_response analysis)
      end
  end.

Definition get_risk_assessment (pool_id : option string)
    : method (ToolResult RiskAnalysis) :=
  λ self,
    (try_except (get_risk_assessment_body self pool_id) isinstance_Exception
       (λ e, Ok (fail_response ("Error getting risk assessment: " +:+ exn_str e))),
     self).

(** [{asset["symbol"]: asset["price_usd"] for asset in assets}]: a later
    entry with the same symbol overwrites an earlier one. *)
Definition asset_prices_of (assets : list Asset.t) : gmap string Q :=
  foldl (λ m asset, <[Asset.symbol asset := Asset.price_usd asset]> m) ∅ assets.

(** The body of [get_user_portfolio] inside its [try].  A stored portfolio
    is a dictionary with three keys, so [not portfolio] only holds when the
    lookup returned [None]. *)
Definition get_user_portfolio_body (self : IOTADeFiTool) (user_id : string)
    : result (ToolResult PortfolioWithMetrics.t) :=
  if String.eqb user_id EmptyString then Ok (fail_response "User ID is required")
  else
    match user_portfolios self !! user_id with
    | None => Ok (fail_response ("No portfolio found for user ID: " +:+ user_id))
    | Some portfolio =>
        let asset_prices := asset_prices_of (MarketData.assets (market_data self)) in
        let wallet_value :=
          py_sum ((λ item : string * Q,
                     let (asset, amount) := item in
                     amount * default 0 (asset_prices !! asset))%Q
                    <$> UserPortfolio.wallet_balance portfolio) in
        let lending_value :=
          py_sum ((λ position,
                     LendingPosition.deposited position
                     * default 0 (asset_prices !! LendingPosition.asset position))%Q
                    <$> UserPortfolio.lending_positions portfolio) in
        let borrowing_value :=
          py_sum ((λ position,
                     BorrowingPosition.borrowed position
                     * default 0 (asset_prices !! BorrowingPosition.asset position))%Q
                    <$> UserPortfolio.borrowing_positions portfolio) in
        let collateral_value :=
          py_sum (omap (λ position,
                     match BorrowingPosition.collateral position with
                     | Some collateral =>
                         Some (Collateral.amount collateral
                               * default 0 (asset_prices !! Collateral.asset collateral))%Q
                     | None => None
                     end)
                    (UserPortfolio.borrowing_positions portfolio)) in
        let portfolio_with_metrics :=
          PortfolioWithMetrics.mk
            (UserPortfolio.wallet_balance portfolio)
            (UserPortfolio.lending_positions portfolio)
            (UserPortfolio.borrowing_positions portfolio)
            (Metrics.mk
               (py_round2 wallet_value)
               (py_round2 lending_value)
               (py_round2 borrowing_value)
               (py_round2 collateral_value)
               (py_round2 (wallet_value + lending_value - borrowing_value))
               (py_round2_float
                  (if Qgt_bool borrowing_value 0
                   then Finite (collateral_value / borrowing_value)
                   else PosInf))) in
        Ok (success_response portfolio_with_metrics)
    end.

Definition get_user_portfolio (user_id : string)
    : method (ToolResult PortfolioWithMetrics.t) :=
  λ self,
    (try_except (get_user_portfolio_body self user_id) isinstance_Exception
       (λ e, Ok (fail_response ("Error getting user portfolio: " +:+ exn_str e))),
     self).

(** [_generate_asset_allocation], first half: the tables and the loop that
    fills [final_allocation] with the clamped, rounded percentages. *)
Definition clamped_allocation
    (risk_tolerance investment_horizon : string) (market_volatility : Q)
    : result (dict Z) :=
  let allocations : dict (dict Z) :=
    [ ("conservative", [("stablecoins", 60); ("IOTA", 30); ("other_crypto", 10)]);
      ("moderate", [("stablecoins", 40); ("IOTA", 40); ("other_crypto", 20)]);
      ("aggressive", [("stablecoins", 20); ("IOTA", 50); ("other_crypto", 30)]) ]%Z in
  let horizon_adjustments : dict (dict Z) :=
    [ ("short", [("stablecoins", 10); ("IOTA", -5); ("other_crypto", -5)]);
      ("medium", [("stablecoins", 0); ("IOTA", 0); ("other_crypto", 0)]);
      ("long", [("stablecoins", -10); ("IOTA", 5); ("other_crypto", 5)]) ]%Z in
  let volatility_factor := (market_volatility * 10)%Q in
  let volatility_adjustments : dict Q :=
    [ ("stablecoins", volatility_factor);
      ("IOTA", - volatility_factor / 2);
      ("other_crypto", - volatility_factor / 2) ]%Q in
  let* base_allocation := dict_getitem allocations risk_tolerance in
  let* horizon_adjustment := dict_getitem horizon_adjustments investment_horizon in
  foldM (λ (final_allocation : dict Z) (item : string * Z),
      let (asset, percentage) := item in
      let* h := dict_getitem horizon_adjustment asset in
      let* v := dict_getitem volatility_adjustments asset in
      let adjusted := (inject_Z percentage + inject_Z h + v)%Q in
      Ok (dict_setitem final_allocation asset
            (Z.max 0 (Z.min 100 (py_round adjusted)))))
    [] base_allocation.

(** [sum(final_allocation.values())]. *)
Definition allocation_total (final_allocation : dict Z) : Z :=
  foldl Z.add 0%Z (final_allocation.*2).

(** [_generate_asset_allocation], second half: "Normalize to 100%".
    [100 / total] raises [ZeroDivisionError] when [total] is 0. *)
Definition normalize_allocation (final_allocation : dict Z) : result (dict Z) :=
  let total := allocation_total final_allocation in
  if negb (total =? 100)%Z then
    if (total =? 0)%Z then Raise (mk_exn ZeroDivisionError "division by zero")
    else
      let scale_factor := (100 / inject_Z total)%Q in
      let final_allocation : dict Z :=
        (λ item : string * Z,
           let (asset, percentage) := item in
           (asset, py_round (inject_Z percentage * scale_factor)))
          <$> final_allocation in
      let diff := (100 - allocation_total final_allocation)%Z in
      if negb (diff =? 0)%Z then
        match py_max_key final_allocation with
        | None => Raise (mk_exn ValueError "max() arg is an empty sequence")
        | Some largest_asset =>
            let* largest := dict_getitem final_allocation largest_asset in
            Ok (dict_setitem final_allocation largest_asset (largest + diff)%Z)
        end
      else Ok final_allocation
  else Ok final_allocation.

(** [_generate_asset_allocation]. *)
Definition _generate_asset_allocation
    (risk_tolerance investment_horizon : string) (market_volatility : Q)
    : result (dict Z) :=
  let* final_allocation :=
    clamped_allocation risk_tolerance investment_horizon market_volatility in
  normalize_allocation final_allocation.

(** [_generate_strategies]. *)
Definition _generate_strategies
    (risk_tolerance investment_horizon : string) (market_volatility : Q)
    : list Strategy.t :=
  let strategies :=
    [ Strategy.mk "Diversification"
        "Spread investments across multiple assets to reduce risk" ] in
  let strategies :=
    if String.eqb risk_tolerance "conservative" then
      let strategies :=
        strategies ++
        [ Strategy.mk "Stable Yield Farming"
            "Focus on stable assets and lower-risk lending pools with consistent returns" ] in
      if String.eqb investment_horizon "medium" || String.eqb investment_horizon "long"
      then
        strategies ++
        [ Strategy.mk "Dollar-Cost Averaging"
            "Gradually invest in IOTA over time to reduce impact of volatility" ]
      else strategies
    else if String.eqb risk_tolerance "moderate" then
      strategies ++
      [ Strategy.mk "Balanced Approach"
          "Combine stable yields with some higher-risk positions for growth potential";
        Strategy.mk "Strategic Rebalancing"
          "Periodically adjust portfolio allocations to maintain desired risk level" ]
    else if String.eqb risk_tolerance "aggressive" then
      let strategies :=
        strategies ++
        [ Strategy.mk "Growth Focus"
            "Target higher yields through more volatile assets and lending opportunities" ] in
      if Qlt_bool market_volatility 0.7 then
        strategies ++
        [ Strategy.mk "Strategic Leverage"
            "Use carefully managed leverage positions for amplified returns" ]
      else strategies
    else strategies in
  if Qgt_bool market_volatility 0.6 then
    strategies ++
    [ Strategy.mk "Volatility Hedging"
        "Increase stablecoin allocation and use hedging strategies during high volatility" ]
  else strategies.

(** [_generate_opportunities].  [next(...)] without a default raises
    [StopIteration] when no stored pool carries the id. *)
Definition _generate_opportunities (self : IOTADeFiTool)
    (risk_tolerance investment_horizon : string) : result (list Opportunity.t) :=
  let opportunities : list Opportunity.t := [] in
  let pool_risk_levels : dict string :=
    [ ("pool_1", "conservative"); ("pool_2", "aggressive") ] in
  let* suitable_pools :=
    foldM (λ (suitable_pools : list LendingPool.t) (item : string * string),
        let (pool_id, risk_level) := item in
        if (String.eqb risk_tolerance "conservative" && String.eqb risk_level "conservative")
           || String.eqb risk_tolerance "moderate"
           || String.eqb risk_tolerance "aggressive"
        then
          match
            List.find (λ p, String.eqb (LendingPool.id p) pool_id)
              (MarketData.lending_pools (market_data self))
          with
          | Some pool => Ok (suitable_pools ++ [pool])
          | None => Raise (mk_exn StopIteration EmptyString)
          end
        else Ok suitable_pools)
      [] pool_risk_levels in
  let opportunities :=
    opportunities ++
    ((λ pool,
       Opportunity.mk "lending"
         (LendingPool.name pool +:+ " Deposit")
         ("Deposit assets in " +:+ LendingPool.name pool +:+ " for "
            +:+ py_str (PFloat (Finite (LendingPool.apy pool))) +:+ "% APY")
         (py_str (PFloat (Finite (LendingPool.apy pool))) +:+ "%")
         (if String.eqb (LendingPool.id pool) "pool_1" then "Low" else "Medium-High"))
      <$> suitable_pools) in
  let opportunities :=
    if negb (String.eqb risk_tolerance "conservative") then
      opportunities ++
      [ Opportunity.mk "staking" "IOTA Staking"
          "Stake IOTA tokens to earn rewards and support network security"
          "5-7%" "Medium" ]
    else opportunities in
  let opportunities :=
    if String.eqb risk_tolerance "aggressive"
       && negb (String.eqb investment_horizon "short")
    then
      opportunities ++
      [ Opportunity.mk "yield_farming" "IOTA-BTC LP Farming"
          "Provide liquidity to IOTA-BTC pair for trading fees and rewards"
          "12-15%" "High" ]
    else opportunities in
  Ok opportunities.

(** [_generate_rebalancing_advice]. *)
Definition _generate_rebalancing_advice (portfolio : UserPortfolio.t)
    (risk_tolerance : string) : RebalancingAdvice.t :=
  let actions : list RebalancingAction.t := [] in
  let actions :=
    match dict_lookup (UserPortfolio.wallet_balance portfolio) "IOTA" with
    | Some iota =>
        if Qgt_bool iota 5000 then
          if String.eqb risk_tolerance "conservative" then
            actions ++
            [ RebalancingAction.mk "Reduce IOTA exposure"
                "Consider converting 20% of your IOTA holdings to stablecoins to reduce volatility risk"
                "Your current IOTA allocation exceeds the recommended amount for your risk profile" ]
          else actions
        else actions
    | None => actions
    end in
  let actions :=
    if (length (UserPortfolio.lending_positions portfolio) <? 2)%nat then
      actions ++
      [ RebalancingAction.mk "Diversify lending positions"
          "Spread your deposits across multiple lending pools to reduce platform-specific risk"
          "Diversification can help protect against pool-specific issues or smart contract vulnerabilities" ]
    else actions in
  RebalancingAdvice.mk
    "Your portfolio may benefit from rebalancing to better align with your risk profile."
    actions.

(** [_generate_risk_management_advice]. *)
Definition _generate_risk_management_advice (portfolio : UserPortfolio.t)
    (market_volatility : Q) : RiskManagementAdvice.t :=
  let recommendations : list RiskRecommendation.t :=
    omap (λ position,
        match BorrowingPosition.collateral position with
        | Some collateral =>
            if Qlt_bool (Collateral.ratio collateral) 180 then
              Some (RiskRecommendation.mk "High" "Increase collateral"
                      ("Add more collateral to your " +:+ BorrowingPosition.asset position
                         +:+ " borrowing position to reduce liquidation risk")
                      "Current market volatility increases the risk of liquidation for positions with lower collateral ratios")
            else None
        | None => None
        end)
      (UserPortfolio.borrowing_positions portfolio) in
  let recommendations :=
    if Qgt_bool market_volatility 0.4 then
      recommendations ++
      [ RiskRecommendation.mk "Medium" "Set up stop-loss strategies"
          "Configure automated protection for your more volatile assets"
          "Current market conditions suggest increased volatility may continue" ]
    else recommendations in
  let recommendations :=
    recommendations ++
    [ RiskRecommendation.mk "Low" "Review lending pool utilization"
        "Monitor the utilization rates of pools where you have deposits"
        "High utilization rates may indicate increased risk of liquidity issues" ] in
  RiskManagementAdvice.mk
    (if Qlt_bool market_volatility 0.5 then "Good" else "Requires Attention")
    recommendations.

(** The body of [get_ai_investment_recommendations] inside its [try]. *)
Definition get_ai_investment_recommendations_body (self : IOTADeFiTool)
    (risk_tolerance investment_horizon : string) (user_id : option string)
    : result (ToolResult Recommendations.t) :=
  let valid_risk_levels := ["conservative"; "moderate"; "aggressive"] in
  let valid_horizons := ["short"; "medium"; "long"] in
  if negb (bool_decide (risk_tolerance ∈ valid_risk_levels)) then
    Ok (fail_response ("Invalid risk_tolerance. Must be one of: "
                         +:+ String.concat ", " valid_risk_levels))
  else if negb (bool_decide (investment_horizon ∈ valid_horizons)) then
    Ok (fail_response ("Invalid investment_horizon. Must be one of: "
                         +:+ String.concat ", " valid_horizons))
  else
    let user_portfolio :=
      match user_id with
      | None | Some EmptyString => None
      | Some user_id => user_portfolios self !! user_id
      end in
    let market_metrics := MarketData.risk_metrics (market_data self) in
    let market_volatility := RiskMetrics.market_volatility market_metrics in
    let* asset_allocation :=
      _generate_asset_allocation risk_tolerance investment_horizon market_volatility in
    let strategies :=
      _generate_strategies risk_tolerance investment_horizon market_volatility in
    let* specific_opportunities :=
      _generate_opportunities self risk_tolerance investment_horizon in
    let portfolio_specific :=
      match user_portfolio with
      | Some user_portfolio =>
          Some (PortfolioSpecific.mk
                  (_generate_rebalancing_advice user_portfolio risk_tolerance)
                  (_generate_risk_management_advice user_portfolio market_volatility))
      | None => None
      end in
    Ok (success_response
          (Recommendations.mk asset_allocation strategies specific_opportunities
             portfolio_specific)).

Definition get_ai_investment_recommendations
    (risk_tolerance investment_horizon : string) (user_id : option string)
    : method (ToolResult Recommendations.t) :=
  λ self,
    (try_except
       (get_ai_investment_recommendations_body self risk_tolerance
          investment_horizon user_id)
       isinstance_Exception
       (λ e, Ok (fail_response
                   ("Error generating investment recommendations: " +:+ exn_str e))),
     self).

End Tool.

(** ** The specification's wording

    The definitions below follow the text of the specification, not the
    source; the theorems compare them with the methods above. *)

Inductive risk_level := Conservative | Moderate | Aggressive.
Inductive horizon := Short | Medium | Long.

Definition risk_name (r : risk_level) : string :=
  match r with
  | Conservative => "conservative"
  | Moderate => "moderate"
  | Aggressive => "aggressive"
  end.

Definition horizon_name (h : horizon) : string :=
  match h with
  | Short => "short"
  | Medium => "medium"
  | Long => "long"
  end.

(** Percentages for (stablecoins, IOTA, other). *)
Definition shares : Type := (Q * Q * Q)%type.
Definition rounded_shares : Type := (Z * Z * Z)%type.

(** Step 1: base percentages per risk tolerance. *)
Definition spec_base (r : risk_level) : shares :=
  match r with
  | Conservative => (60, 30, 10)
  | Moderate => (40, 40, 20)
  | Aggressive => (20, 50, 30)
  end%Q.

(** Step 2: horizon delta. *)
Definition spec_horizon_delta (h : horizon) : shares :=
  match h with
  | Short => (10, -5, -5)
  | Medium => (0, 0, 0)
  | Long => (-10, 5, 5)
  end%Q.

(** Step 3: volatility delta, with v = market_volatility × 10. *)
Definition spec_volatility_delta (market_volatility : Q) : shares :=
  let v := (market_volatility * 10)%Q in
  (v, - (v / 2), - (v / 2))%Q.

Definition spec_clamp (x : Q) : Q :=
  if Qlt_bool x 0 then 0%Q else if Qlt_bool 100 x then 100%Q else x.

(** Step 4: sum the deltas onto the base, clamp into [0,100], round. *)
Definition spec_clamped (r : risk_level) (h : horizon) (market_volatility : Q)
    : rounded_shares :=
  let '(b1, b2, b3) := spec_base r in
  let '(h1, h2, h3) := spec_horizon_delta h in
  let '(v1, v2, v3) := spec_volatility_delta market_volatility in
  (py_round (spec_clamp (b1 + h1 + v1)),
   py_round (spec_clamp (b2 + h2 + v2)),
   py_round (spec_clamp (b3 + h3 + v3))).

(** Step 5: when the sum is not 100, rescale by 100/sum, round, and put
    the residual on the category with the largest share. *)
Definition spec_normalize (a : rounded_shares) : rounded_shares :=
  let '(s, i, o) := a in
  let sum := (s + i + o)%Z in
  if (sum =? 100)%Z then a
  else
    let rescale x := py_round (inject_Z x * (100 / inject_Z sum)) in
    let '(s, i, o) := (rescale s, rescale i, rescale o) in
    let residual := (100 - (s + i + o))%Z in
    if (i <=? s)%Z && (o <=? s)%Z then ((s + residual)%Z, i, o)
    else if (o <=? i)%Z then (s, (i + residual)%Z, o)
    else (s, i, (o + residual)%Z).

Definition spec_asset_allocation (r : risk_level) (h : horizon)
    (market_volatility : Q) : rounded_shares :=
  spec_normalize (spec_clamped r h market_volatility).

(** The dictionary the method returns for given shares. *)
Definition allocation_dict (a : rounded_shares) : dict Z :=
  let '(s, i, o) := a in
  [("stablecoins", s); ("IOTA", i); ("other_crypto", o)].

(** "price lookup defaults to 0 for unknown symbols": the price of the
    stored asset with that symbol (the last one, should the table repeat a
    symbol). *)
Definition spec_price (assets : list Asset.t) (sym : string) : Q :=
  foldl (λ price asset,
      if String.eqb (Asset.symbol asset) sym then Asset.price_usd asset else price)
    0%Q assets.

(** Σ over a list of terms. *)
Definition spec_sum (terms : list Q) : Q := foldr Qplus 0%Q terms.

(** The six metrics of section 4.1, [get_user_portfolio]. *)
Definition spec_metrics (assets : list Asset.t) (portfolio : UserPortfolio.t)
    : Metrics.t :=
  let price := spec_price assets in
  let wallet_value :=
    spec_sum ((λ item : string * Q, item.2 * price item.1)%Q
                <$> UserPortfolio.wallet_balance portfolio) in
  let lending_value :=
    spec_sum ((λ p, LendingPosition.deposited p * price (LendingPosition.asset p))%Q
                <$> UserPortfolio.lending_positions portfolio) in
  let borrowing_value :=
    spec_sum ((λ p, BorrowingPosition.borrowed p * price (BorrowingPosition.asset p))%Q
                <$> UserPortfolio.borrowing_positions portfolio) in
  let collateral_value :=
    spec_sum
      (flat_map (λ p,
           match BorrowingPosition.collateral p with
           | Some c => [(Collateral.amount c * price (Collateral.asset c))%Q]
           | None => []
           end)
         (UserPortfolio.borrowing_positions portfolio)) in
  Metrics.mk
    (py_round2 wallet_value)
    (py_round2 lending_value)
    (py_round2 borrowing_value)
    (py_round2 collateral_value)
    (py_round2 (wallet_value + lending_value - borrowing_value))
    (if Qlt_bool 0 borrowing_value
     then Finite (py_round2 (collateral_value / borrowing_value))
     else PosInf).

(** Section 4.1, [get_risk_assessment]: the buckets, as relations between a
    measured value and the word used for it. *)
Definition risk_bucket (x : Q) (word : string) : Prop :=
  (x < 0.3 ∧ word = "low")%Q ∨
  (0.3 <= x ∧ x < 0.7 ∧ word = "moderate")%Q ∨
  (0.7 <= x ∧ word = "high")%Q.

Definition health_bucket (x : Q) (word : string) : Prop :=
  (0.8 < x ∧ word = "excellent")%Q ∨
  (0.5 < x ∧ x <= 0.8 ∧ word = "good")%Q ∨
  (x <= 0.5 ∧ word = "concerning")%Q.

Definition utilization_bucket (x : Q) (word : string) : Prop :=
  (x < 60 ∧ word = "low")%Q ∨
  (60 <= x ∧ x < 80 ∧ word = "moderate")%Q ∨
  (80 <= x ∧ word = "high")%Q.

Definition collateral_bucket (x : Q) (word : string) : Prop :=
  (180 < x ∧ word = "high")%Q ∨
  (140 < x ∧ x <= 180 ∧ word = "moderate")%Q ∨
  (x <= 140 ∧ word = "low")%Q.

(** The two fixed recommendation variants of the pool assessment. *)
Definition pool_recommendations (high_utilization : bool) : list string :=
  if high_utilization
  then [ "Consider depositing more assets to earn higher yields";
         "Maintain higher collateral ratios due to high utilization" ]
  else [ "This pool has capacity for more deposits";
         "Standard collateral ratios are likely sufficient" ].

(** A list of symbols as the [assets] argument. *)
Definition symbols_arg (symbols : list string) : pyval := PList (PStr <$> symbols).

(** An optional list of symbols as the [assets] argument. *)
Definition optional_symbols_arg (symbols : option (list string)) : pyval :=
  match symbols with
  | Some symbols => symbols_arg symbols
  | None => PNone
  end.

(** [get_market_data]: "the subsequence of assets whose symbol is in the
    requested set, preserving the stored order". *)
Definition spec_requested_assets (stored : list Asset.t) (symbols : list string)
    : list Asset.t :=
  List.filter (λ asset, bool_decide (Asset.symbol asset ∈ symbols)) stored.

(** The number a [min_apy] argument stands for, when it is an integer or a
    finite float. *)
Definition as_number (v : pyval) : option Q :=
  match v with
  | PInt z => Some (inject_Z z)
  | PFloat (Finite q) => Some q
  | _ => None
  end.

(** [get_lending_pools]: a pool is retained when its apy is at least
    [min_apy], if given, and when one of the requested symbols is among
    its assets, if a non-empty list is given. *)
Definition spec_pool_retained (min_apy : option Q) (symbols : option (list string))
    (pool : LendingPool.t) : bool :=
  match min_apy with
  | Some q => Qle_bool q (LendingPool.apy pool)
  | None => true
  end
  && match symbols with
     | None | Some [] => true
     | Some symbols =>
         existsb (λ s, bool_decide (s ∈ LendingPool.assets pool)) symbols
     end.

(** The filters named by the failure message of [get_lending_pools]. *)
Definition spec_applied_filters `{PyRuntime} (min_apy : pyval)
    (symbols : option (list string)) : list string :=
  match min_apy with
  | PNone => []
  | _ => ["min_apy=" +:+ py_str min_apy]
  end
  ++ match symbols with
     | None | Some [] => []
     | Some symbols => ["assets=" +:+ py_str (symbols_arg symbols)]
     end.

(** Section 4.1, opportunities: which kind of entry an opportunity is. *)
Definition is_lending_opportunity (pool_name level : string) (o : Opportunity.t)
    : bool :=
  String.eqb (Opportunity.type o) "lending"
  && String.eqb (Opportunity.name o) (pool_name +:+ " Deposit")
  && String.eqb (Opportunity.risk_level o) level.

Definition is_staking_opportunity (o : Opportunity.t) : bool :=
  String.eqb (Opportunity.type o) "staking"
  && String.eqb (Opportunity.name o) "IOTA Staking"
  && String.eqb (Opportunity.expected_return o) "5-7%"
  && String.eqb (Opportunity.risk_level o) "Medium".

Definition is_farming_opportunity (o : Opportunity.t) : bool :=
  String.eqb (Opportunity.type o) "yield_farming"
  && String.eqb (Opportunity.name o) "IOTA-BTC LP Farming"
  && String.eqb (Opportunity.expected_return o) "12-15%"
  && String.eqb (Opportunity.risk_level o) "High".

Section SpecOpportunities.
Context `{PyRuntime}.

(** The lending entry emitted for an offered pool. *)
Definition lending_opportunity (pool : LendingPool.t) (level : string)
    : Opportunity.t :=
  Opportunity.mk "lending"
    (LendingPool.name pool +:+ " Deposit")
    ("Deposit assets in " +:+ LendingPool.name pool +:+ " for "
       +:+ py_str (PFloat (Finite (LendingPool.apy pool))) +:+ "% APY")
    (py_str (PFloat (Finite (LendingPool.apy pool))) +:+ "%")
    level.

Definition staking_opportunity : Opportunity.t :=
  Opportunity.mk "staking" "IOTA Staking"
    "Stake IOTA tokens to earn rewards and support network security"
    "5-7%" "Medium".

Definition farming_opportunity : Opportunity.t :=
  Opportunity.mk "yield_farming" "IOTA-BTC LP Farming"
    "Provide liquidity to IOTA-BTC pair for trading fees and rewards"
    "12-15%" "High".

(** The opportunities of section 4.1 over two pools: [pool_1], tagged
    conservative, is offered to everyone; [pool_2], tagged aggressive, to
    moderate and aggressive profiles; then staking unless conservative;
    then farming for aggressive profiles with a horizon other than short. *)
Definition spec_opportunities (pool_1 pool_2 : LendingPool.t)
    (r : risk_level) (h : horizon) : list Opportunity.t :=
  [lending_opportunity pool_1 "Low"]
  ++ match r with
     | Conservative => []
     | _ => [lending_opportunity pool_2 "Medium-High"]
     end
  ++ match r with
     | Conservative => []
     | _ => [staking_opportunity]
     end
  ++ match r, h with
     | Aggressive, Medium | Aggressive, Long => [farming_opportunity]
     | _, _ => []
     end.

End SpecOpportunities.

(** "If user_id given and known, load that portfolio". *)
Definition spec_loaded_portfolio (self : IOTADeFiTool) (user_id : option string)
    : option UserPortfolio.t :=
  match user_id with
  | Some u => if String.eqb u EmptyString then None else user_portfolios self !! u
  | None => None
  end.

(** Section 7: what a call can raise, and what the operation boundary
    owes its caller. *)
Definition raises_only_Exception {A} (m : result A) : Prop :=
  ∀ e, m = Raise e → isinstance_Exception e = true.

(** [call] is the outcome of a method whose [try] block is [body]: the
    method returns an envelope, never raises, leaves [self] alone, and a
    fault of the body comes back as a failure that carries its message. *)
Definition total_at_boundary {A} (call : result (ToolResult A) * IOTADeFiTool)
    (body : result (ToolResult A)) (prefix : string) (self : IOTADeFiTool) : Prop :=
  ∃ r,
    call = (Ok r, self)
    ∧ ((∃ data, r = success_response data) ∨ (∃ msg, r = fail_response msg))
    ∧ (∀ data, body = Ok data → r = data)
    ∧ (∀ e, body = Raise e → r = fail_response (prefix +:+ exn_str e)).

(** ** A small runtime, to run the model on examples

    It decodes two JSON texts, parses no float and prints a value as the
    name of its type. *)
Definition demo_json_loads (s : string) : result pyval :=
  if String.eqb s "[]" then Ok (PList [])
  else if String.eqb s "5" then Ok (PInt 5)
  else Raise (mk_exn JSONDecodeError "Expecting value").

Definition demo_repr (v : pyval) : string := "<" +:+ type_name v +:+ ">".

#[export] Instance demo_runtime : PyRuntime.
Proof.
  refine {| json_loads := demo_json_loads;
            float_of_str := λ _, None;
            py_repr := demo_repr |}.
  intros s e. unfold demo_json_loads.
  destruct (String.eqb s "[]"); [discriminate|].
  destruct (String.eqb s "5"); [discriminate|].
  intros [= <-]. reflexivity.
Defined.

(** ** Proof automation *)

(** Two allocation dictionaries are equal when their entries are. *)
Ltac dict_ext :=
  repeat first
    [ reflexivity
    | apply (f_equal (@Ok (dict Z)))
    | apply (f_equal2 (@cons (string * Z)))
    | apply (f_equal2 (@pair string Z)) ].


(** ** Vocabulary of the further properties *)

(** A borrowing position whose collateral ratio is below 180. *)
Definition undercollateralized (position : BorrowingPosition.t) : bool :=
  match BorrowingPosition.collateral position with
  | Some collateral => Qlt_bool (Collateral.ratio collateral) 180
  | None => false
  end.

(** The list a filtering query hands back: the payload of a success, and
    nothing for a failure. *)
Definition returned {A} (call : result (ToolResult (list A)) * IOTADeFiTool)
    : list A :=
  match call.1 with
  | Ok (success_response data) => data
  | _ => []
  end.

(** A number or a truth value: what [in] and [for] cannot range over. *)
Definition is_scalar (v : pyval) : bool :=
  match v with
  | PBool _ | PInt _ | PFloat _ => true
  | _ => false
  end.

(** The JSON text of the string IOTA,BTC: the characters between two
    double quotes. *)
Definition quoted_symbols_text : string :=
  let quote := Ascii.ascii_of_nat 34 in
  String quote ("IOTA,BTC" +:+ String quote EmptyString).

Definition reading_json_loads (s : string) : result pyval :=
  if String.eqb s quoted_symbols_text then Ok (PStr "IOTA,BTC")
  else demo_json_loads s.

(** A runtime that also decodes that text and whose [float] reads the text
    "5"; it is otherwise the small runtime above. *)
Definition reading_runtime : PyRuntime.
Proof.
  refine {| json_loads := reading_json_loads;
            float_of_str := λ s, if String.eqb s "5" then Some (Finite 5) else None;
            py_repr := demo_repr |}.
  intros s e. unfold reading_json_loads.
  destruct (String.eqb s quoted_symbols_text); [discriminate|].
  apply (@json_loads_raises demo_runtime).
Defined.
(** * Properties *)

(** ** Rounding *)

Lemma py_round_floor_le (x : Q) : (Qfloor x <= py_round x)%Z.
Proof.
  unfold py_round. destruct (Qcompare _ _); [destruct (Z.even _)|..]; lia.
Qed.

Lemma py_round_le_floor_succ (x : Q) : (py_round x <= Qfloor x + 1)%Z.
Proof.
  unfold py_round. destruct (Qcompare _ _); [destruct (Z.even _)|..]; lia.
Qed.

Lemma py_round_proper : Proper (Qeq ==> eq) py_round.
Proof.
  intros x y Hxy. unfold py_round.
  rewrite (Qfloor_comp _ _ Hxy).
  assert (Hc : (x - inject_Z (Qfloor y) ?= 1 # 2)%Q
               = (y - inject_Z (Qfloor y) ?= 1 # 2)%Q).
  { apply Qcompare_comp; [rewrite Hxy|]; reflexivity. }
  rewrite Hc. reflexivity.
Qed.

#[export] Existing Instance py_round_proper.

Lemma py_round_inject_Z (n : Z) : py_round (inject_Z n) = n.
Proof.
  unfold py_round. rewrite Qfloor_Z.
  assert (Hc : (inject_Z n - inject_Z n ?= 1 # 2)%Q = Lt).
  { apply Qlt_alt. unfold Qminus. rewrite Qplus_opp_r. reflexivity. }
  rewrite Hc. reflexivity.
Qed.

(** An integer below [x] is below [round(x)]. *)
Lemma py_round_lower (n : Z) (x : Q) : (inject_Z n <= x)%Q → (n <= py_round x)%Z.
Proof.
  intros Hx. pose proof (Qfloor_resp_le _ _ Hx) as Hf. rewrite Qfloor_Z in Hf.
  pose proof (py_round_floor_le x). lia.
Qed.

(** An integer above [x] is above [round(x)]. *)
Lemma py_round_upper (n : Z) (x : Q) : (x <= inject_Z n)%Q → (py_round x <= n)%Z.
Proof.
  intros Hx. pose proof (Qfloor_resp_le _ _ Hx) as Hf. rewrite Qfloor_Z in Hf.
  destruct (Z.eq_dec (Qfloor x) n) as [Heq|Hne].
  - assert (Hxn : (x == inject_Z n)%Q).
    { apply Qle_antisym; [exact Hx|]. rewrite <- Heq. apply Qfloor_le. }
    rewrite Hxn, py_round_inject_Z. lia.
  - pose proof (py_round_le_floor_succ x). lia.
Qed.


(** Ties go to the even neighbour. *)
Example py_round_ties :
  py_round 0.5 = 0%Z ∧ py_round 1.5 = 2%Z ∧ py_round 2.5 = 2%Z
  ∧ py_round (-0.5) = 0%Z ∧ py_round (-1.5) = (-2)%Z ∧ py_round 64.2 = 64%Z.
Proof. repeat split. Qed.

Lemma Qlt_bool_spec (x y : Q) : reflect (x < y)%Q (Qlt_bool x y).
Proof.
  unfold Qlt_bool. destruct (x ?= y)%Q eqn:Hc; constructor.
  - apply Qeq_alt in Hc. rewrite Hc. apply Qlt_irrefl.
  - apply Qlt_alt. exact Hc.
  - apply Qgt_alt in Hc. intros Hlt. exact (Qlt_irrefl _ (Qlt_trans _ _ _ Hlt Hc)).
Qed.

(** Clamping an integer rounding is rounding the clamped number: the
    source rounds first, the specification clamps first. *)
Lemma clamp_py_round (x : Q) :
  Z.max 0 (Z.min 100 (py_round x)) = py_round (spec_clamp x).
Proof.
  unfold spec_clamp.
  destruct (Qlt_bool_spec x 0) as [Hneg|Hnonneg].
  - pose proof (py_round_upper 0 x (Qlt_le_weak _ _ Hneg)).
    change 0%Q with (inject_Z 0). rewrite py_round_inject_Z. lia.
  - apply Qnot_lt_le in Hnonneg.
    destruct (Qlt_bool_spec 100 x) as [Hbig|Hsmall].
    + pose proof (py_round_lower 100 x (Qlt_le_weak _ _ Hbig)).
      change 100%Q with (inject_Z 100). rewrite py_round_inject_Z. lia.
    + apply Qnot_lt_le in Hsmall.
      pose proof (py_round_lower 0 x Hnonneg).
      pose proof (py_round_upper 100 x Hsmall). lia.
Qed.

(** ** Asset allocation *)

Lemma spec_clamp_round_nonneg (x : Q) : (0 <= py_round (spec_clamp x))%Z.
Proof. rewrite <- clamp_py_round. lia. Qed.

Lemma spec_clamp_round_lower (n : Z) (x : Q) :
  (0 <= n <= 100)%Z → (inject_Z n <= x)%Q → (n <= py_round (spec_clamp x))%Z.
Proof.
  intros Hn Hx. rewrite <- clamp_py_round.
  pose proof (py_round_lower n x Hx). lia.
Qed.

(** Three numbers that add up to 100 keep a total of at least 33 after
    clamping and rounding: the largest of them is above 33. *)
Lemma clamped_total_lower (x1 x2 x3 : Q) :
  (x1 + x2 + x3 == 100)%Q →
  (33 <= py_round (spec_clamp x1) + py_round (spec_clamp x2)
         + py_round (spec_clamp x3))%Z.
Proof.
  intros Hsum.
  pose proof (spec_clamp_round_nonneg x1) as Hn1.
  pose proof (spec_clamp_round_nonneg x2) as Hn2.
  pose proof (spec_clamp_round_nonneg x3) as Hn3.
  destruct (Qlt_le_dec x1 (inject_Z 33)) as [H1|H1].
  - destruct (Qlt_le_dec x2 (inject_Z 33)) as [H2|H2].
    + assert (H3 : (inject_Z 33 <= x3)%Q).
      { change (inject_Z 33) with 33%Q in *. lra. }
      pose proof (spec_clamp_round_lower 33 x3 ltac:(lia) H3). lia.
    + pose proof (spec_clamp_round_lower 33 x2 ltac:(lia) H2). lia.
  - pose proof (spec_clamp_round_lower 33 x1 ltac:(lia) H1). lia.
Qed.

Lemma clamped_round_ext (x y : Q) :
  (x == y)%Q → Z.max 0 (Z.min 100 (py_round x)) = py_round (spec_clamp y).
Proof. intros Hxy. rewrite Hxy. apply clamp_py_round. Qed.

(** Whatever the market volatility, the clamped and rounded percentages
    add up to at least 33. *)
Lemma spec_clamped_total_lower (r : risk_level) (h : horizon) (v : Q) :
  let '(s, i, o) := spec_clamped r h v in (33 <= s + i + o)%Z.
Proof.
  destruct r, h;
    cbv [spec_clamped spec_base spec_horizon_delta spec_volatility_delta];
    apply clamped_total_lower; field.
Qed.

Section Allocation.
Context `{PyRuntime}.

(** The loop of [_generate_asset_allocation] computes step 4 of the
    specification, for every market volatility. *)
Lemma clamped_allocation_spec (r : risk_level) (h : horizon) (v : Q) :
  clamped_allocation (risk_name r) (horizon_name h) v
  = Ok (allocation_dict (spec_clamped r h v)).
Proof.
  destruct r, h;
    cbv [clamped_allocation risk_name horizon_name dict_getitem dict_lookup
         String.eqb Ascii.eqb Bool.eqb bind foldM dict_setitem
         spec_clamped spec_base spec_horizon_delta spec_volatility_delta
         allocation_dict];
    dict_ext; apply clamped_round_ext; unfold Qdiv; ring.
Qed.

End Allocation.

Section Normalize.
Context `{PyRuntime}.

Lemma normalize_allocation_spec (s i o : Z) :
  (s + i + o)%Z ≠ 0%Z →
  normalize_allocation (allocation_dict (s, i, o))
  = Ok (allocation_dict (spec_normalize (s, i, o))).
Proof.
  intros Hsum.
  unfold normalize_allocation, spec_normalize, allocation_dict, allocation_total.
  cbn [fmap list_fmap foldl snd].
  replace (0 + s + i + o)%Z with (s + i + o)%Z by lia.
  destruct (s + i + o =? 100)%Z eqn:E100; cbn [negb]; [reflexivity|].
  destruct (s + i + o =? 0)%Z eqn:E0; [lia|].
  set (scale_factor := (100 / inject_Z (s + i + o))%Q).
  set (s' := py_round (inject_Z s * scale_factor)).
  set (i' := py_round (inject_Z i * scale_factor)).
  set (o' := py_round (inject_Z o * scale_factor)).
  replace (0 + s' + i' + o')%Z with (s' + i' + o')%Z by lia.
  clearbody s' i' o'. clear scale_factor.
  set (diff := (100 - (s' + i' + o'))%Z).
  destruct (diff =? 0)%Z eqn:Ediff; cbn [negb].
  - apply Z.eqb_eq in Ediff. rewrite Ediff, !Z.add_0_r.
    destruct ((i' <=? s')%Z && (o' <=? s')%Z); [reflexivity|].
    destruct (o' <=? i')%Z; reflexivity.
  - cbv [py_max_key foldl snd fst].
    destruct (i' >? s')%Z eqn:Eis; destruct (o' >? _)%Z eqn:Eo;
      cbv [dict_getitem dict_lookup String.eqb Ascii.eqb Bool.eqb bind
           dict_setitem];
      destruct (i' <=? s')%Z eqn:Eis'; destruct (o' <=? s')%Z eqn:Eos';
      destruct (o' <=? i')%Z eqn:Eoi'; cbn [andb]; try reflexivity; lia.
Qed.

End Normalize.

Section Recommendations.
Context `{PyRuntime}.

(** For every market volatility, on the three risk tolerances and the
    three horizons, [_generate_asset_allocation] returns the allocation the
    five steps of the specification describe; in particular it never
    divides by zero. *)
Lemma generate_asset_allocation_spec (r : risk_level) (h : horizon) (v : Q) :
  _generate_asset_allocation (risk_name r) (horizon_name h) v
  = Ok (allocation_dict (spec_asset_allocation r h v)).
Proof.
  unfold _generate_asset_allocation, spec_asset_allocation.
  rewrite clamped_allocation_spec. cbn [bind].
  pose proof (spec_clamped_total_lower r h v) as Htotal.
  destruct (spec_clamped r h v) as [[s i] o].
  apply normalize_allocation_spec. lia.
Qed.

(** The strings accepted by the validation are the names of the three
    risk tolerances and of the three horizons. *)
Lemma valid_risk_levels_names (s : string) :
  s ∈ ["conservative"; "moderate"; "aggressive"] ↔ ∃ r, s = risk_name r.
Proof.
  rewrite !elem_of_cons, elem_of_nil. split.
  - intros [->|[->|[->|[]]]];
      [exists Conservative|exists Moderate|exists Aggressive]; reflexivity.
  - intros [[] ->]; cbn; tauto.
Qed.

Lemma valid_horizons_names (s : string) :
  s ∈ ["short"; "medium"; "long"] ↔ ∃ h, s = horizon_name h.
Proof.
  rewrite !elem_of_cons, elem_of_nil. split.
  - intros [->|[->|[->|[]]]];
      [exists Short|exists Medium|exists Long]; reflexivity.
  - intros [[] ->]; cbn; tauto.
Qed.

(** With [pool_1] and [pool_2] in the pool table, the opportunities are
    those of the specification. *)
Lemma generate_opportunities_spec (self : IOTADeFiTool) (p1 p2 : LendingPool.t)
    (r : risk_level) (h : horizon) :
  List.find (λ p, String.eqb (LendingPool.id p) "pool_1")
    (MarketData.lending_pools (market_data self)) = Some p1 →
  List.find (λ p, String.eqb (LendingPool.id p) "pool_2")
    (MarketData.lending_pools (market_data self)) = Some p2 →
  _generate_opportunities self (risk_name r) (horizon_name h)
  = Ok (spec_opportunities p1 p2 r h).
Proof.
  intros Hp1 Hp2.
  pose proof (find_some _ _ Hp1) as [_ Hid1].
  pose proof (find_some _ _ Hp2) as [_ Hid2].
  apply String.eqb_eq in Hid1, Hid2.
  unfold _generate_opportunities, spec_opportunities, lending_opportunity.
  destruct r, h; cbn [risk_name horizon_name foldM bind String.eqb Ascii.eqb
                      Bool.eqb andb orb negb];
    rewrite ?Hp1, ?Hp2; cbn [bind app fmap list_fmap];
    rewrite ?Hid1, ?Hid2; reflexivity.
Qed.

(** A call with valid parameters on a tool that holds the stored market
    snapshot, whatever its portfolios. *)
Lemma recommendations_on_stored_market (self : IOTADeFiTool)
    (r : risk_level) (h : horizon) (user_id : option string) :
  market_data self = stored_market_data →
  get_ai_investment_recommendations (risk_name r) (horizon_name h) user_id self
  = (Ok (success_response
           (Recommendations.mk
              (allocation_dict (spec_asset_allocation r h 0.42))
              (_generate_strategies (risk_name r) (horizon_name h) 0.42)
              (spec_opportunities stored_pool_1 stored_pool_2 r h)
              ((λ p, PortfolioSpecific.mk
                       (_generate_rebalancing_advice p (risk_name r))
                       (_generate_risk_management_advice p 0.42))
                 <$> spec_loaded_portfolio self user_id))),
     self).
Proof.
  intros Hmarket.
  unfold get_ai_investment_recommendations, get_ai_investment_recommendations_body.
  assert (Hr : bool_decide (risk_name r ∈ ["conservative"; "moderate"; "aggressive"])
               = true).
  { apply bool_decide_eq_true, valid_risk_levels_names. eauto. }
  assert (Hh : bool_decide (horizon_name h ∈ ["short"; "medium"; "long"]) = true).
  { apply bool_decide_eq_true, valid_horizons_names. eauto. }
  rewrite Hr, Hh. cbn [negb].
  rewrite (generate_opportunities_spec self stored_pool_1 stored_pool_2)
    by (rewrite Hmarket; reflexivity).
  rewrite Hmarket.
  change (RiskMetrics.market_volatility (MarketData.risk_metrics stored_market_data))
    with 0.42%Q.
  rewrite generate_asset_allocation_spec. cbn [bind try_except].
  do 3 f_equal.
  destruct user_id as [[|c u]|]; reflexivity.
Qed.


(** C10. For every valid pair and the stored market volatility 0.42, the
    clamped and rounded values computed by [_generate_asset_allocation]
    have a strictly positive sum, the stablecoins entry alone being at
    least 14, so the normalization does not divide by zero: it returns. *)
Theorem C10_allocation_total_positive (r : risk_level) (h : horizon) :
  let market_volatility :=
    RiskMetrics.market_volatility (MarketData.risk_metrics stored_market_data) in
  ∃ final_allocation stablecoins,
    clamped_allocation (risk_name r) (horizon_name h) market_volatility
    = Ok final_allocation
    ∧ dict_lookup final_allocation "stablecoins" = Some stablecoins
    ∧ (14 <= stablecoins)%Z
    ∧ (0 < allocation_total final_allocation)%Z
    ∧ ∃ allocation, normalize_allocation final_allocation = Ok allocation.
Proof.
  intros market_volatility.
  rewrite clamped_allocation_spec.
  pose proof (generate_asset_allocation_spec r h market_volatility) as Hgen.
  unfold _generate_asset_allocation in Hgen.
  rewrite clamped_allocation_spec in Hgen. cbn [bind] in Hgen.
  exists (allocation_dict (spec_clamped r h market_volatility)).
  assert (Hvalues :
    ∃ s i o, spec_clamped r h market_volatility = (s, i, o)
             ∧ (14 <= s)%Z ∧ (0 < s + i + o)%Z).
  { destruct r, h; vm_compute; do 3 eexists;
      (split; [reflexivity|split; discriminate || reflexivity]). }
  destruct Hvalues as (s & i & o & Heq & Hs & Hsum).
  rewrite Heq in *. exists s.
  split; [reflexivity|]. split; [reflexivity|]. split; [exact Hs|].
  split; [unfold allocation_total; cbn; lia|].
  eexists. exact Hgen.
Qed.

(** C6. The [specific_opportunities] of a successful call: the lending
    entry of pool_1 (risk level Low) is always there; the lending entry of
    pool_2 (Medium-High) iff the risk tolerance is moderate or aggressive;
    the staking entry iff it is not conservative; the IOTA-BTC farming
    entry (12-15%, High) iff it is aggressive and the horizon is not short.
    So (aggressive, short) has no farming entry and (aggressive, medium)
    has one. *)
Theorem C6_specific_opportunities (environ : gmap string string)
    (r : risk_level) (h : horizon) (user_id : option string) :
  (∃ recs,
     get_ai_investment_recommendations (risk_name r) (horizon_name h) user_id
       (__init__ environ)
     = (Ok (success_response recs), __init__ environ)
     ∧ let opportunities := Recommendations.specific_opportunities recs in
       opportunities = spec_opportunities stored_pool_1 stored_pool_2 r h
       ∧ existsb (is_lending_opportunity "IOTA Stable Pool" "Low") opportunities
         = true
       ∧ (existsb (is_lending_opportunity "IOTA High Yield" "Medium-High")
            opportunities = true
          ↔ r = Moderate ∨ r = Aggressive)
       ∧ (existsb is_staking_opportunity opportunities = true ↔ r ≠ Conservative)
       ∧ (existsb is_farming_opportunity opportunities = true
          ↔ r = Aggressive ∧ h ≠ Short))
  ∧ (∃ recs,
       get_ai_investment_recommendations "aggressive" "short" user_id
         (__init__ environ)
       = (Ok (success_response recs), __init__ environ)
       ∧ existsb is_farming_opportunity (Recommendations.specific_opportunities recs)
         = false)
  ∧ (∃ recs,
       get_ai_investment_recommendations "aggressive" "medium" user_id
         (__init__ environ)
       = (Ok (success_response recs), __init__ environ)
       ∧ existsb is_farming_opportunity (Recommendations.specific_opportunities recs)
         = true).
Proof.
  split; [|split].
  - rewrite recommendations_on_stored_market by reflexivity.
    eexists. split; [reflexivity|].
    cbn [Recommendations.specific_opportunities]. split; [reflexivity|].
    destruct r, h; vm_compute; intuition congruence.
  - rewrite (recommendations_on_stored_market _ Aggressive Short) by reflexivity.
    eexists. split; reflexivity.
  - rewrite (recommendations_on_stored_market _ Aggressive Medium) by reflexivity.
    eexists. split; reflexivity.
Qed.

(** C8. A risk tolerance or horizon outside the allowed values makes
    [get_ai_investment_recommendations] fail with a message that lists the
    allowed values.  With valid parameters the call succeeds whatever the
    user id, also when it matches no stored portfolio, and the result has a
    [portfolio_specific] entry, made of the rebalancing and the risk
    management advice, exactly when a portfolio was loaded. *)
Theorem C8_recommendation_parameters :
  (∀ (self : IOTADeFiTool) (risk_tolerance investment_horizon : string)
     (user_id : option string),
     risk_tolerance ∉ ["conservative"; "moderate"; "aggressive"]
     ∨ investment_horizon ∉ ["short"; "medium"; "long"] →
     get_ai_investment_recommendations risk_tolerance investment_horizon user_id self
     = (Ok (fail_response
              (if bool_decide
                    (risk_tolerance ∈ ["conservative"; "moderate"; "aggressive"])
               then "Invalid investment_horizon. Must be one of: short, medium, long"
               else "Invalid risk_tolerance. Must be one of: conservative, moderate, aggressive")),
        self))
  ∧ (∀ (node_url explorer_url : string) (portfolios : gmap string UserPortfolio.t)
       (r : risk_level) (h : horizon) (user_id : option string),
       let self := mk_tool node_url explorer_url stored_market_data portfolios in
       ∃ recs,
         get_ai_investment_recommendations (risk_name r) (horizon_name h) user_id self
         = (Ok (success_response recs), self)
         ∧ Recommendations.portfolio_specific recs
           = (λ p, PortfolioSpecific.mk
                     (_generate_rebalancing_advice p (risk_name r))
                     (_generate_risk_management_advice p
                        (RiskMetrics.market_volatility
                           (MarketData.risk_metrics stored_market_data))))
               <$> spec_loaded_portfolio self user_id
         ∧ (is_Some (Recommendations.portfolio_specific recs)
            ↔ is_Some (spec_loaded_portfolio self user_id))).
Proof.
  split.
  - intros self risk_tolerance investment_horizon user_id Hinvalid.
    unfold get_ai_investment_recommendations,
      get_ai_investment_recommendations_body.
    destruct (bool_decide_reflect
                (risk_tolerance ∈ ["conservative"; "moderate"; "aggressive"]))
      as [Hr|Hr]; cbn [negb]; [|reflexivity].
    destruct (bool_decide_reflect (investment_horizon ∈ ["short"; "medium"; "long"]))
      as [Hh|Hh]; cbn [negb]; [|reflexivity].
    tauto.
  - intros node_url explorer_url portfolios r h user_id self.
    rewrite recommendations_on_stored_market by reflexivity.
    eexists. split; [reflexivity|].
    cbn [Recommendations.portfolio_specific]. split; [reflexivity|].
    rewrite fmap_is_Some. reflexivity.
Qed.

End Recommendations.

(** C8 at an invalid risk tolerance, an invalid horizon, and an unknown
    user id. *)
Lemma C8_recommendation_parameters_witness :
  (get_ai_investment_recommendations "reckless" "medium" None (__init__ ∅)).1
  = Ok (fail_response
          "Invalid risk_tolerance. Must be one of: conservative, moderate, aggressive")
  ∧ (get_ai_investment_recommendations "moderate" "forever" None (__init__ ∅)).1
    = Ok (fail_response
            "Invalid investment_horizon. Must be one of: short, medium, long").
Proof.
  split.
  - rewrite (proj1 C8_recommendation_parameters (__init__ ∅) "reckless" "medium" None).
    + reflexivity.
    + left. rewrite !elem_of_cons, elem_of_nil.
      intros [?|[?|[?|[]]]]; discriminate.
  - rewrite (proj1 C8_recommendation_parameters (__init__ ∅) "moderate" "forever" None).
    + reflexivity.
    + right. rewrite !elem_of_cons, elem_of_nil.
      intros [?|[?|[?|[]]]]; discriminate.
Defined.

(** ** Portfolio metrics *)

Lemma py_round2_proper : Proper (Qeq ==> eq) py_round2.
Proof. intros x y Hxy. unfold py_round2. rewrite Hxy. reflexivity. Qed.

#[export] Existing Instance py_round2_proper.

(** The price dictionary built by the comprehension, read with
    [.get(symbol, 0)], is the price table of the specification. *)
Lemma asset_prices_lookup (assets : list Asset.t) (sym : string) :
  default 0%Q (asset_prices_of assets !! sym) = spec_price assets sym.
Proof.
  unfold asset_prices_of, spec_price.
  induction assets as [|asset assets IH] using rev_ind; [reflexivity|].
  rewrite !foldl_snoc, lookup_insert.
  destruct (String.eqb_spec (Asset.symbol asset) sym) as [Heq|Hne].
  - rewrite decide_True by exact Heq. reflexivity.
  - rewrite decide_False by exact Hne. exact IH.
Qed.



(** Summing from the left, as [sum] does, or from the right gives the
    same number. *)
Lemma py_sum_spec_sum (terms : list Q) : (py_sum terms == spec_sum terms)%Q.
Proof.
  unfold py_sum, spec_sum.
  assert (Hgen : ∀ a, (foldl Qplus a terms == a + foldr Qplus 0 terms)%Q).
  { induction terms as [|x terms IH]; intros a; cbn [foldl foldr].
    - ring.
    - rewrite IH. ring. }
  rewrite Hgen. ring.
Qed.

Lemma Qlt_bool_proper : Proper (Qeq ==> Qeq ==> eq) Qlt_bool.
Proof. intros x x' Hx y y' Hy. unfold Qlt_bool. rewrite Hx, Hy. reflexivity. Qed.

#[export] Existing Instance Qlt_bool_proper.

(** The generator over the positions that carry collateral. *)
Lemma collateral_terms (price1 price2 : string → Q)
    (positions : list BorrowingPosition.t) :
  (∀ sym, price1 sym = price2 sym) →
  omap (λ position,
      match BorrowingPosition.collateral position with
      | Some collateral =>
          Some (Collateral.amount collateral * price1 (Collateral.asset collateral))%Q
      | None => None
      end) positions
  = flat_map (λ p,
        match BorrowingPosition.collateral p with
        | Some c => [(Collateral.amount c * price2 (Collateral.asset c))%Q]
        | None => []
        end) positions.
Proof.
  intros Hprice.
  induction positions as [|p positions IH]; [reflexivity|].
  cbn [omap list_omap flat_map]. rewrite <- IH.
  destruct (BorrowingPosition.collateral p); [rewrite Hprice|]; reflexivity.
Qed.

(** Rounded metrics only depend on the values of the four sums. *)
Lemma metrics_ext (w l b c w' l' b' c' : Q) :
  (w == w')%Q → (l == l')%Q → (b == b')%Q → (c == c')%Q →
  Metrics.mk (py_round2 w) (py_round2 l) (py_round2 b) (py_round2 c)
    (py_round2 (w + l - b))
    (py_round2_float (if Qlt_bool 0 b then Finite (c / b) else PosInf))
  = Metrics.mk (py_round2 w') (py_round2 l') (py_round2 b') (py_round2 c')
      (py_round2 (w' + l' - b'))
      (if Qlt_bool 0 b' then Finite (py_round2 (c' / b')) else PosInf).
Proof.
  intros Hw Hl Hb Hc.
  rewrite (Qlt_bool_proper 0%Q 0%Q (Qeq_refl 0) b b' Hb).
  destruct (Qlt_bool 0 b'); cbn [py_round2_float];
    rewrite Hw, Hl, Hb, Hc; reflexivity.
Qed.

(** The metrics computed by [get_user_portfolio] are those of the
    specification. *)
Lemma get_user_portfolio_found (self : IOTADeFiTool) (user_id : string)
    (portfolio : UserPortfolio.t) :
  user_id ≠ EmptyString →
  user_portfolios self !! user_id = Some portfolio →
  get_user_portfolio user_id self
  = (Ok (success_response
           (PortfolioWithMetrics.mk
              (UserPortfolio.wallet_balance portfolio)
              (UserPortfolio.lending_positions portfolio)
              (UserPortfolio.borrowing_positions portfolio)
              (spec_metrics (MarketData.assets (market_data self)) portfolio))),
     self).
Proof.
  intros Hid Hstored.
  unfold get_user_portfolio, get_user_portfolio_body.
  apply String.eqb_neq in Hid. rewrite Hid, Hstored. cbn [try_except].
  set (assets := MarketData.assets (market_data self)).
  set (price := spec_price assets).
  set (prices := asset_prices_of assets).
  assert (Hprice : ∀ sym, default 0%Q (prices !! sym) = price sym)
    by (intros sym; apply asset_prices_lookup).
  do 3 f_equal. unfold spec_metrics. fold price.
  rewrite (list_fmap_ext _ (λ item : string * Q, (item.2 * price item.1)%Q)
             (UserPortfolio.wallet_balance portfolio))
    by (intros i [asset amount] _; cbn; rewrite Hprice; reflexivity).
  rewrite (list_fmap_ext _
             (λ p, (LendingPosition.deposited p * price (LendingPosition.asset p))%Q)
             (UserPortfolio.lending_positions portfolio))
    by (intros i p _; cbn; rewrite Hprice; reflexivity).
  rewrite (list_fmap_ext _
             (λ p, (BorrowingPosition.borrowed p * price (BorrowingPosition.asset p))%Q)
             (UserPortfolio.borrowing_positions portfolio))
    by (intros i p _; cbn; rewrite Hprice; reflexivity).
  pose proof (collateral_terms (λ sym, default 0%Q (prices !! sym)) price
                (UserPortfolio.borrowing_positions portfolio) Hprice) as Hcoll.
  cbv beta in Hcoll. rewrite Hcoll. clear Hcoll.
  unfold Qgt_bool. f_equal.
  apply metrics_ext; apply py_sum_spec_sum.
Qed.



(** C2, as the code has it.  [get_user_portfolio("user_123")] succeeds
    with wallet value 10000×0.1452 + 5000×price(USDT), lending value
    4000×0.1452, borrowing value 2000×price(USDT) and collateral value
    6000×0.1452, each rounded to two decimals.  USDT is not in the stored
    asset table, so price(USDT) is 0, the borrowing value is 0, and the
    health factor is positive infinity, not a quotient. *)
Theorem C2_user_123_metrics (environ : gmap string string) :
  let price := spec_price (MarketData.assets stored_market_data) in
  ∃ p,
    get_user_portfolio "user_123" (__init__ environ)
    = (Ok (success_response p), __init__ environ)
    ∧ let m := PortfolioWithMetrics.metrics p in
      price "USDT" = 0%Q
      ∧ Metrics.total_wallet_value_usd m
        = py_round2 (10000 * 0.1452 + 5000 * price "USDT")
      ∧ Metrics.total_lending_value_usd m = py_round2 (4000 * 0.1452)
      ∧ Metrics.total_borrowing_value_usd m = py_round2 (2000 * price "USDT")
      ∧ Metrics.total_collateral_value_usd m = py_round2 (6000 * 0.1452)
      ∧ (Metrics.total_wallet_value_usd m == 1452)%Q
      ∧ (Metrics.total_lending_value_usd m == 580.8)%Q
      ∧ (Metrics.total_borrowing_value_usd m == 0)%Q
      ∧ (Metrics.total_collateral_value_usd m == 871.2)%Q
      ∧ Metrics.health_factor m = PosInf.
Proof.
  intros price.
  erewrite get_user_portfolio_found; [|discriminate|reflexivity].
  eexists. split; [reflexivity|].
  vm_compute. repeat split.
Qed.

(** C2 as stated fails: the health factor of user_123 is not a finite
    number, so it is not the rounded quotient of the two values. *)
Lemma C2_health_factor_counterexample :
  ¬ ∃ p q,
      (get_user_portfolio "user_123" (__init__ ∅)).1 = Ok (success_response p)
      ∧ Metrics.health_factor (PortfolioWithMetrics.metrics p) = Finite q.
Proof.
  intros (p & q & Hp & Hq).
  vm_compute in Hp. injection Hp as <-. discriminate Hq.
Qed.

(** ** Filtering queries *)

Lemma filterM_pure {A} (p : A → bool) (l : list A) :
  filterM (λ x, Ok (p x)) l = Ok (List.filter p l).
Proof.
  induction l as [|x l IH]; [reflexivity|].
  cbn [filterM List.filter bind]. rewrite IH. cbn [bind].
  destruct (p x); reflexivity.
Qed.

Lemma filterM_ext {A} (p q : A → result bool) (l : list A) :
  (∀ x, p x = q x) → filterM p l = filterM q l.
Proof.
  intros Hpq. induction l as [|x l IH]; [reflexivity|].
  cbn [filterM]. rewrite Hpq, IH. reflexivity.
Qed.

Lemma filter_filter_andb {A} (p q : A → bool) (l : list A) :
  List.filter q (List.filter p l) = List.filter (λ x, p x && q x) l.
Proof.
  induction l as [|x l IH]; [reflexivity|].
  cbn [List.filter]. destruct (p x); cbn [List.filter andb]; rewrite IH; reflexivity.
Qed.

Lemma filter_nil_iff {A} (p : A → bool) (l : list A) :
  List.filter p l = [] ↔ ∀ x, x ∈ l → p x = false.
Proof.
  induction l as [|x l IH]; cbn [List.filter].
  - split; [intros _ x []%elem_of_nil|reflexivity].
  - destruct (p x) eqn:Hpx; split.
    + discriminate.
    + intros Hall. specialize (Hall x (list_elem_of_here _ _)). congruence.
    + intros Hnil y [->|Hy]%elem_of_cons; [exact Hpx|]. apply IH; assumption.
    + intros Hall. apply IH. intros y Hy. apply Hall. right. exact Hy.
Qed.

(** [symbol in assets] on a list of symbols is membership. *)
Lemma py_in_symbols (s : string) (symbols : list string) :
  py_in s (symbols_arg symbols) = Ok (bool_decide (s ∈ symbols)).
Proof.
  unfold py_in, symbols_arg. f_equal.
  induction symbols as [|t symbols IH]; [reflexivity|].
  cbn [fmap list_fmap existsb]. rewrite IH.
  destruct (String.eqb_spec s t) as [->|Hne]; cbn [orb].
  - symmetry. apply bool_decide_eq_true. left.
  - apply bool_decide_ext. rewrite elem_of_cons. tauto.
Qed.

Lemma truthy_symbols_arg (symbols : list string) :
  truthy (symbols_arg symbols) = match symbols with [] => false | _ => true end.
Proof. destruct symbols; reflexivity. Qed.

Section Filtering.
Context `{PyRuntime}.

(** [get_market_data] on a list of symbols. *)
Lemma get_market_data_symbols (self : IOTADeFiTool) (symbols : list string) :
  let stored := MarketData.assets (market_data self) in
  get_market_data (symbols_arg symbols) self
  = (Ok match symbols with
        | [] => success_response stored
        | _ =>
            match spec_requested_assets stored symbols with
            | [] =>
                fail_response
                  ("No data found for assets: " +:+ py_str (symbols_arg symbols))
            | found => success_response found
            end
        end,
     self).
Proof.
  intros stored.
  unfold get_market_data, get_market_data_body.
  change (with_parsed_assets (symbols_arg symbols) ?k) with (k (symbols_arg symbols)).
  cbv beta. rewrite truthy_symbols_arg.
  destruct symbols as [|s symbols]; [reflexivity|]. cbn [negb].
  rewrite (filterM_ext _ (λ asset, Ok (bool_decide (Asset.symbol asset ∈ s :: symbols))))
    by (intros asset; apply py_in_symbols).
  rewrite filterM_pure. cbn [bind]. fold stored.
  unfold spec_requested_assets.
  destruct (List.filter _ stored); reflexivity.
Qed.

(** C4. With an empty or absent list [get_market_data] returns all stored
    assets in stored order; otherwise it returns the stored assets whose
    symbol is in the list, in stored order, and fails with "No data found
    for assets" exactly when no stored asset has its symbol in the list. *)
Theorem C4_market_data_filter (self : IOTADeFiTool) (symbols : list string) :
  let stored := MarketData.assets (market_data self) in
  get_market_data PNone self = (Ok (success_response stored), self)
  ∧ get_market_data (symbols_arg []) self = (Ok (success_response stored), self)
  ∧ (symbols ≠ [] →
     get_market_data (symbols_arg symbols) self
     = (Ok match spec_requested_assets stored symbols with
           | [] =>
               fail_response
                 ("No data found for assets: " +:+ py_str (symbols_arg symbols))
           | found => success_response found
           end,
        self)
     ∧ ((∃ msg, get_market_data (symbols_arg symbols) self
                = (Ok (fail_response msg), self))
        ↔ ∀ asset, asset ∈ stored → Asset.symbol asset ∉ symbols)).
Proof.
  intros stored. split; [reflexivity|]. split; [reflexivity|].
  intros Hne. rewrite get_market_data_symbols. fold stored.
  destruct symbols as [|s symbols]; [congruence|].
  split; [reflexivity|].
  pose proof (filter_nil_iff
                (λ asset, bool_decide (Asset.symbol asset ∈ s :: symbols)) stored)
    as Hnil.
  fold (spec_requested_assets stored (s :: symbols)) in Hnil.
  destruct (spec_requested_assets stored (s :: symbols)) as [|a found]; split.
  - intros _ asset Hin.
    apply (bool_decide_eq_false_1 (Asset.symbol asset ∈ s :: symbols)).
    apply Hnil; [reflexivity|exact Hin].
  - intros _. eexists. reflexivity.
  - intros [msg [=]].
  - intros Hall. exfalso.
    assert (Hempty : a :: found = []).
    { apply Hnil. intros asset Hin. apply bool_decide_eq_false_2, Hall, Hin. }
    discriminate.
Qed.

End Filtering.

(** C4 on the stored assets: a list naming two of them, and a list naming
    none. *)
Lemma C4_market_data_filter_witness :
  (get_market_data (symbols_arg ["BTC"; "IOTA"]) (__init__ ∅)).1
  = Ok (success_response
          [ Asset.mk "IOTA" 0.1452 2.34 403782401;
            Asset.mk "BTC" 63245.78 (-1.23) 1234567890123 ])
  ∧ (get_market_data (symbols_arg ["ZZZ"]) (__init__ ∅)).1
    = Ok (fail_response "No data found for assets: <list>").
Proof.
  split.
  - rewrite (proj1 (proj2 (proj2 (C4_market_data_filter (__init__ ∅) ["BTC"; "IOTA"]))
                      ltac:(discriminate))).
    reflexivity.
  - rewrite (proj1 (proj2 (proj2 (C4_market_data_filter (__init__ ∅) ["ZZZ"]))
                      ltac:(discriminate))).
    reflexivity.
Defined.

Lemma filter_all {A} (l : list A) : List.filter (λ _, true) l = l.
Proof. induction l as [|x l IH]; [reflexivity|]. cbn. rewrite IH. reflexivity. Qed.

Lemma existsb_symbols (symbols pool_assets : list string) :
  existsb (λ asset, py_in_strs asset pool_assets) (PStr <$> symbols)
  = existsb (λ s, bool_decide (s ∈ pool_assets)) symbols.
Proof.
  induction symbols as [|s symbols IH]; [reflexivity|].
  cbn [fmap list_fmap existsb]. rewrite <- IH. reflexivity.
Qed.

Section Pools.
Context `{PyRuntime}.

(** The [min_apy] filter on a numeric argument. *)
Lemma pools_with_min_apy_number (min_apy : pyval) (q : Q) (pools : list LendingPool.t) :
  as_number min_apy = Some q →
  pools_with_min_apy min_apy pools
  = Ok (List.filter (λ pool, Qle_bool q (LendingPool.apy pool)) pools).
Proof.
  intros Hnum. unfold pools_with_min_apy.
  assert (Hfloat : py_float min_apy = Ok (Finite q)).
  { destruct min_apy as [| | |[]| | |]; try discriminate;
      injection Hnum as <-; reflexivity. }
  rewrite (filterM_ext _ (λ pool, Ok (Qle_bool q (LendingPool.apy pool))))
    by (intros pool; rewrite Hfloat; reflexivity).
  apply filterM_pure.
Qed.

(** The [assets] filter on a non-empty list of symbols. *)
Lemma pools_with_assets_symbols (symbols : list string) (pools : list LendingPool.t) :
  pools_with_assets (symbols_arg symbols) pools
  = Ok (List.filter
          (λ pool, existsb (λ s, bool_decide (s ∈ LendingPool.assets pool)) symbols)
          pools).
Proof.
  unfold pools_with_assets.
  rewrite (filterM_ext _
             (λ pool, Ok (existsb (λ s, bool_decide (s ∈ LendingPool.assets pool))
                            symbols)))
    by (intros pool; cbn [symbols_arg py_iter bind]; rewrite existsb_symbols;
        reflexivity).
  apply filterM_pure.
Qed.

(** [get_lending_pools] on a numeric or absent [min_apy] and a list of
    symbols or no list. *)
Lemma get_lending_pools_typed (self : IOTADeFiTool) (min_apy : pyval)
    (symbols : option (list string)) :
  min_apy = PNone ∨ is_Some (as_number min_apy) →
  get_lending_pools min_apy (optional_symbols_arg symbols) self
  = (Ok match
          List.filter (spec_pool_retained (as_number min_apy) symbols)
            (MarketData.lending_pools (market_data self))
        with
        | [] =>
            fail_response
              ("No lending pools found with filters: "
                 +:+ String.concat ", " (spec_applied_filters min_apy symbols))
        | retained => success_response retained
        end,
     self).
Proof.
  intros Hmin.
  unfold get_lending_pools, get_lending_pools_body.
  set (pools := MarketData.lending_pools (market_data self)).
  assert (Hparsed : ∀ k : pyval → result (ToolResult (list LendingPool.t)),
             with_parsed_assets (optional_symbols_arg symbols) k
             = k (optional_symbols_arg symbols))
    by (intros k; destruct symbols; reflexivity).
  rewrite Hparsed. clear Hparsed.
  assert (Hfirst :
    match min_apy with
    | PNone => Ok pools
    | _ => pools_with_min_apy min_apy pools
    end
    = Ok (List.filter
            (λ pool, match as_number min_apy with
                     | Some q => Qle_bool q (LendingPool.apy pool)
                     | None => true
                     end) pools)).
  { destruct Hmin as [->|[q Hq]].
    - cbn [as_number]. rewrite filter_all. reflexivity.
    - rewrite Hq. rewrite <- (pools_with_min_apy_number min_apy q pools Hq).
      destruct min_apy; try reflexivity. discriminate. }
  rewrite Hfirst. cbn [bind]. clear Hfirst.
  set (first := List.filter _ pools).
  assert (Hsecond :
    (if truthy (optional_symbols_arg symbols)
     then pools_with_assets (optional_symbols_arg symbols) first
     else Ok first)
    = Ok (List.filter (spec_pool_retained (as_number min_apy) symbols) pools)).
  { unfold spec_pool_retained.
    rewrite <- (filter_filter_andb
                  (λ pool, match as_number min_apy with
                           | Some q => Qle_bool q (LendingPool.apy pool)
                           | None => true
                           end)
                  (λ pool, match symbols with
                           | None | Some [] => true
                           | Some symbols =>
                               existsb (λ s, bool_decide (s ∈ LendingPool.assets pool))
                                 symbols
                           end) pools).
    fold first.
    destruct symbols as [[|s symbols]|]; cbn [optional_symbols_arg];
      rewrite ?truthy_symbols_arg; cbn [truthy];
      rewrite ?filter_all; try reflexivity.
    apply pools_with_assets_symbols. }
  rewrite Hsecond. cbn [bind]. clear Hsecond first.
  destruct (List.filter (spec_pool_retained (as_number min_apy) symbols) pools)
    as [|pool retained]; cbn [try_except]; [|reflexivity].
  do 4 f_equal. unfold spec_applied_filters.
  destruct min_apy; destruct symbols as [[|sym symbols]|]; reflexivity.
Qed.

End Pools.


Section PoolsClaim.
Context `{PyRuntime}.


End PoolsClaim.


(** ** Risk assessment *)

Lemma risk_bucket_word (x : Q) :
  risk_bucket x
    (if Qlt_bool x 0.3 then "low" else if Qlt_bool x 0.7 then "moderate" else "high").
Proof.
  unfold risk_bucket.
  destruct (Qlt_bool_spec x 0.3) as [Hlow|Hlow%Qnot_lt_le]; [tauto|].
  destruct (Qlt_bool_spec x 0.7) as [Hmid|Hmid%Qnot_lt_le]; tauto.
Qed.

Lemma health_bucket_word (x : Q) :
  health_bucket x
    (if Qgt_bool x 0.8 then "excellent"
     else if Qgt_bool x 0.5 then "good" else "concerning").
Proof.
  unfold health_bucket, Qgt_bool.
  destruct (Qlt_bool_spec 0.8 x) as [Hhigh|Hhigh%Qnot_lt_le]; [tauto|].
  destruct (Qlt_bool_spec 0.5 x) as [Hmid|Hmid%Qnot_lt_le]; tauto.
Qed.

Lemma utilization_bucket_word (x : Q) :
  utilization_bucket x
    (if Qlt_bool x 60 then "low" else if Qlt_bool x 80 then "moderate" else "high").
Proof.
  unfold utilization_bucket.
  destruct (Qlt_bool_spec x 60) as [Hlow|Hlow%Qnot_lt_le]; [tauto|].
  destruct (Qlt_bool_spec x 80) as [Hmid|Hmid%Qnot_lt_le]; tauto.
Qed.

Lemma collateral_bucket_word (x : Q) :
  collateral_bucket x
    (if Qgt_bool x 180 then "high" else if Qgt_bool x 140 then "moderate" else "low").
Proof.
  unfold collateral_bucket, Qgt_bool.
  destruct (Qlt_bool_spec 180 x) as [Hhigh|Hhigh%Qnot_lt_le]; [tauto|].
  destruct (Qlt_bool_spec 140 x) as [Hmid|Hmid%Qnot_lt_le]; tauto.
Qed.

Lemma find_none_iff {A} (p : A → bool) (l : list A) :
  List.find p l = None ↔ ∀ x, x ∈ l → p x = false.
Proof.
  split.
  - intros Hnone x Hx%list_elem_of_In. exact (find_none p l Hnone x Hx).
  - intros Hall. induction l as [|x l IH]; [reflexivity|]. cbn [List.find].
    rewrite (Hall x (list_elem_of_here _ _)). apply IH.
    intros y Hy. apply Hall. right. exact Hy.
Qed.

(** C7, as the code has it.  Without a pool id, which is how the method
    treats both [None] and the empty string, the market volatility and the
    liquidation risk are worded low (<0.3), moderate (<0.7) or high (≥0.7)
    and the protocol health excellent (>0.8), good (>0.5) or concerning
    (≤0.5); the stored metrics read moderate, moderate, excellent.  With a
    non-empty pool id of a stored pool, utilization is worded low (<60),
    moderate (<80) or high (≥80), collateral safety high (>180), moderate
    (>140) or low (≤140), and the recommendations are one of two fixed
    pairs, chosen by utilization > 80.  A non-empty pool id of no stored
    pool gives the not-found failure naming the id. *)
Theorem C7_risk_assessment_buckets (self : IOTADeFiTool) :
  let metrics := MarketData.risk_metrics (market_data self) in
  let pools := MarketData.lending_pools (market_data self) in
  (∀ pool_id, pool_id = None ∨ pool_id = Some EmptyString →
     ∃ volatility liquidation health,
       risk_bucket (RiskMetrics.market_volatility metrics) volatility
       ∧ risk_bucket (RiskMetrics.liquidation_risk metrics) liquidation
       ∧ health_bucket (RiskMetrics.protocol_health metrics) health
       ∧ get_risk_assessment pool_id self
         = (Ok (success_response
                  (MarketAnalysis metrics
                     ("The current market presents " +:+ volatility
                        +:+ " volatility with " +:+ liquidation
                        +:+ " liquidation risk. Overall protocol health is "
                        +:+ health +:+ ".")
                     [ "Maintain appropriate collateralization ratios above 150%";
                       "Diversify lending positions across multiple pools";
                       "Consider hedging strategies in high volatility periods" ])),
            self))
  ∧ (∀ pool_id pool, pool_id ≠ EmptyString →
       List.find (λ p, String.eqb (LendingPool.id p) pool_id) pools = Some pool →
       ∃ utilization collateral (high_utilization : bool),
         utilization_bucket (LendingPool.utilization_rate pool) utilization
         ∧ collateral_bucket (LendingPool.collateral_ratio pool) collateral
         ∧ (high_utilization = true ↔ (80 < LendingPool.utilization_rate pool)%Q)
         ∧ get_risk_assessment (Some pool_id) self
           = (Ok (success_response
                    (PoolAnalysis pool
                       ("Pool '" +:+ LendingPool.name pool +:+ "' has " +:+ utilization
                          +:+ " utilization risk and " +:+ collateral
                          +:+ " collateral safety.")
                       (pool_recommendations high_utilization))),
              self))
  ∧ (∀ pool_id, pool_id ≠ EmptyString →
       (∀ p, p ∈ pools → LendingPool.id p ≠ pool_id) →
       get_risk_assessment (Some pool_id) self
       = (Ok (fail_response ("Lending pool with ID '" +:+ pool_id +:+ "' not found")),
          self))
  ∧ (∀ environ,
       get_risk_assessment None (__init__ environ)
       = (Ok (success_response
                (MarketAnalysis (RiskMetrics.mk 0.42 0.31 0.89)
                   "The current market presents moderate volatility with moderate liquidation risk. Overall protocol health is excellent."
                   [ "Maintain appropriate collateralization ratios above 150%";
                     "Diversify lending positions across multiple pools";
                     "Consider hedging strategies in high volatility periods" ])),
          __init__ environ)).
Proof.
  intros metrics pools. split; [|split; [|split]].
  - intros pool_id Hnone.
    exists (if Qlt_bool (RiskMetrics.market_volatility metrics) 0.3 then "low"
            else if Qlt_bool (RiskMetrics.market_volatility metrics) 0.7
                 then "moderate" else "high").
    exists (if Qlt_bool (RiskMetrics.liquidation_risk metrics) 0.3 then "low"
            else if Qlt_bool (RiskMetrics.liquidation_risk metrics) 0.7
                 then "moderate" else "high").
    exists (if Qgt_bool (RiskMetrics.protocol_health metrics) 0.8 then "excellent"
            else if Qgt_bool (RiskMetrics.protocol_health metrics) 0.5
                 then "good" else "concerning").
    split; [apply risk_bucket_word|]. split; [apply risk_bucket_word|].
    split; [apply health_bucket_word|].
    destruct Hnone as [->| ->]; reflexivity.
  - intros pool_id pool Hid Hfound.
    exists (if Qlt_bool (LendingPool.utilization_rate pool) 60 then "low"
            else if Qlt_bool (LendingPool.utilization_rate pool) 80
                 then "moderate" else "high").
    exists (if Qgt_bool (LendingPool.collateral_ratio pool) 180 then "high"
            else if Qgt_bool (LendingPool.collateral_ratio pool) 140
                 then "moderate" else "low").
    exists (Qgt_bool (LendingPool.utilization_rate pool) 80).
    split; [apply utilization_bucket_word|]. split; [apply collateral_bucket_word|].
    split.
    { unfold Qgt_bool.
      destruct (Qlt_bool_spec 80 (LendingPool.utilization_rate pool)); split;
        try tauto; discriminate. }
    unfold get_risk_assessment, get_risk_assessment_body.
    destruct pool_id as [|c pool_id]; [congruence|].
    fold pools. rewrite Hfound. cbn [try_except].
    unfold pool_recommendations.
    destruct (Qgt_bool (LendingPool.utilization_rate pool) 80); reflexivity.
  - intros pool_id Hid Hunknown.
    unfold get_risk_assessment, get_risk_assessment_body.
    destruct pool_id as [|c pool_id]; [congruence|].
    fold pools.
    assert (Hfind : List.find (λ p, String.eqb (LendingPool.id p) (String c pool_id))
                      pools = None).
    { apply find_none_iff. intros p Hp. apply String.eqb_neq, Hunknown, Hp. }
    rewrite Hfind. reflexivity.
  - intros environ. reflexivity.
Qed.

(** C7 on the stored pools: a pool id that is stored and one that is not. *)
Lemma C7_risk_assessment_buckets_witness :
  (∃ analysis, (get_risk_assessment (Some "pool_2") (__init__ ∅)).1
               = Ok (success_response analysis))
  ∧ (get_risk_assessment (Some "pool_3") (__init__ ∅)).1
    = Ok (fail_response "Lending pool with ID 'pool_3' not found").
Proof.
  split.
  - destruct (proj1 (proj2 (C7_risk_assessment_buckets (__init__ ∅)))
                "pool_2" stored_pool_2 ltac:(discriminate) eq_refl)
      as (utilization & collateral & high & _ & _ & _ & Hcall).
    rewrite Hcall. eexists. reflexivity.
  - rewrite (proj1 (proj2 (proj2 (C7_risk_assessment_buckets (__init__ ∅))))
               "pool_3" ltac:(discriminate)).
    + reflexivity.
    + intros p. cbn. rewrite !elem_of_cons, elem_of_nil.
      intros [->|[->|[]]]; discriminate.
Defined.

(** C7 as stated fails at the empty pool id: no stored pool has it, yet
    the call does not fail; it returns the market assessment. *)
Lemma C7_empty_pool_id_counterexample :
  (∀ p, p ∈ MarketData.lending_pools (market_data (__init__ ∅)) →
        LendingPool.id p ≠ EmptyString)
  ∧ ¬ ∃ msg, (get_risk_assessment (Some EmptyString) (__init__ ∅)).1
             = Ok (fail_response msg).
Proof.
  split.
  - intros p. cbn. rewrite !elem_of_cons, elem_of_nil.
    intros [->|[->|[]]]; discriminate.
  - intros [msg Hcall]. vm_compute in Hcall. discriminate Hcall.
Qed.

(** ** The operation boundary *)

Lemma raises_only_Ok {A} (a : A) : raises_only_Exception (Ok a).
Proof. intros e [=]. Qed.

Lemma raises_only_Raise {A} (e : exn) :
  isinstance_Exception e = true → raises_only_Exception (@Raise A e).
Proof. intros He e' [= <-]. exact He. Qed.

Lemma raises_only_bind {A B} (m : result A) (k : A → result B) :
  raises_only_Exception m → (∀ a, raises_only_Exception (k a)) →
  raises_only_Exception (bind m k).
Proof.
  intros Hm Hk e. destruct m as [a|e']; cbn [bind].
  - apply Hk.
  - intros [= <-]. apply Hm. reflexivity.
Qed.

Lemma raises_only_filterM {A} (p : A → result bool) (l : list A) :
  (∀ x, raises_only_Exception (p x)) → raises_only_Exception (filterM p l).
Proof.
  intros Hp. induction l as [|x l IH]; cbn [filterM].
  - apply raises_only_Ok.
  - apply raises_only_bind; [apply Hp|]. intros b.
    apply raises_only_bind; [exact IH|]. intros r. apply raises_only_Ok.
Qed.

Lemma raises_only_foldM {A B} (f : A → B → result A) (a : A) (l : list B) :
  (∀ a x, raises_only_Exception (f a x)) → raises_only_Exception (foldM f a l).
Proof.
  intros Hf. revert a. induction l as [|x l IH]; intros a; cbn [foldM].
  - apply raises_only_Ok.
  - apply raises_only_bind; [apply Hf|]. exact IH.
Qed.

Lemma raises_only_py_in (s : string) (container : pyval) :
  raises_only_Exception (py_in s container).
Proof.
  destruct container; cbn [py_in];
    (apply raises_only_Ok || (apply raises_only_Raise; reflexivity)).
Qed.

Lemma raises_only_py_iter (v : pyval) : raises_only_Exception (py_iter v).
Proof.
  destruct v; cbn [py_iter];
    (apply raises_only_Ok || (apply raises_only_Raise; reflexivity)).
Qed.

(** The method returns what its [try] block returns, and turns what the
    block raises into a failure. *)
Lemma try_except_boundary {A} (body : result (ToolResult A)) (prefix : string)
    (self : IOTADeFiTool) :
  raises_only_Exception body →
  total_at_boundary
    (try_except body isinstance_Exception
       (λ e, Ok (fail_response (prefix +:+ exn_str e))),
     self)
    body prefix self.
Proof.
  intros Hbody. unfold total_at_boundary.
  destruct body as [r|e]; cbn [try_except].
  - exists r. split; [reflexivity|]. split; [destruct r; eauto|].
    split; [intros ? [= <-]; reflexivity|discriminate].
  - rewrite (Hbody e eq_refl). eexists. split; [reflexivity|].
    split; [eauto|]. split; [discriminate|intros ? [= <-]; reflexivity].
Qed.

Section Boundary.
Context `{PyRuntime}.

Lemma raises_only_py_float (v : pyval) : raises_only_Exception (py_float v).
Proof.
  destruct v; cbn [py_float]; try destruct (float_of_str _);
    (apply raises_only_Ok || (apply raises_only_Raise; reflexivity)).
Qed.

Lemma raises_only_dict_getitem {V} (d : dict V) (k : string) :
  raises_only_Exception (dict_getitem d k).
Proof.
  unfold dict_getitem. destruct (dict_lookup d k);
    (apply raises_only_Ok || (apply raises_only_Raise; reflexivity)).
Qed.

Lemma raises_only_with_parsed_assets {A} (assets : pyval)
    (k : pyval → result (ToolResult A)) :
  (∀ v, raises_only_Exception (k v)) →
  raises_only_Exception (with_parsed_assets assets k).
Proof.
  intros Hk. unfold with_parsed_assets.
  destruct assets; try apply Hk.
  destruct (json_loads s) as [v|e] eqn:Hloads; [apply Hk|].
  destruct (isinstance_JSONDecodeError e); [apply raises_only_Ok|].
  apply raises_only_Raise. exact (json_loads_raises s e Hloads).
Qed.

(** One step of the analysis of what a body can raise. *)
Ltac raises_only_step :=
  lazymatch goal with
  | |- raises_only_Exception (Ok _) => apply raises_only_Ok
  | |- raises_only_Exception (Raise _) => apply raises_only_Raise; reflexivity
  | |- raises_only_Exception (bind _ _) => apply raises_only_bind; [|intros ?]
  | |- raises_only_Exception (filterM _ _) => apply raises_only_filterM; intros ?
  | |- raises_only_Exception (foldM _ _ _) => apply raises_only_foldM; intros ? ?
  | |- raises_only_Exception (py_in _ _) => apply raises_only_py_in
  | |- raises_only_Exception (py_iter _) => apply raises_only_py_iter
  | |- raises_only_Exception (py_float _) => apply raises_only_py_float
  | |- raises_only_Exception (dict_getitem _ _) => apply raises_only_dict_getitem
  | |- raises_only_Exception (with_parsed_assets _ _) =>
      apply raises_only_with_parsed_assets; intros ?
  | |- raises_only_Exception (match ?x with _ => _ end) => destruct x
  end.

Lemma get_market_data_body_raises (self : IOTADeFiTool) (assets : pyval) :
  raises_only_Exception (get_market_data_body self assets).
Proof. unfold get_market_data_body. repeat raises_only_step. Qed.

Lemma get_lending_pools_body_raises (self : IOTADeFiTool) (min_apy assets : pyval) :
  raises_only_Exception (get_lending_pools_body self min_apy assets).
Proof.
  unfold get_lending_pools_body, pools_with_min_apy, pools_with_assets.
  repeat raises_only_step.
Qed.

Lemma get_risk_assessment_body_raises (self : IOTADeFiTool) (pool_id : option string) :
  raises_only_Exception (get_risk_assessment_body self pool_id).
Proof. unfold get_risk_assessment_body. repeat raises_only_step. Qed.

Lemma get_user_portfolio_body_raises (self : IOTADeFiTool) (user_id : string) :
  raises_only_Exception (get_user_portfolio_body self user_id).
Proof. unfold get_user_portfolio_body. repeat raises_only_step. Qed.

Lemma generate_asset_allocation_raises (risk_tolerance investment_horizon : string)
    (market_volatility : Q) :
  raises_only_Exception
    (_generate_asset_allocation risk_tolerance investment_horizon market_volatility).
Proof.
  unfold _generate_asset_allocation, clamped_allocation, normalize_allocation.
  repeat raises_only_step.
Qed.

Lemma generate_opportunities_raises (self : IOTADeFiTool)
    (risk_tolerance investment_horizon : string) :
  raises_only_Exception (_generate_opportunities self risk_tolerance investment_horizon).
Proof. unfold _generate_opportunities. repeat raises_only_step. Qed.

Lemma get_ai_investment_recommendations_body_raises (self : IOTADeFiTool)
    (risk_tolerance investment_horizon : string) (user_id : option string) :
  raises_only_Exception
    (get_ai_investment_recommendations_body self risk_tolerance investment_horizon
       user_id).
Proof.
  unfold get_ai_investment_recommendations_body.
  repeat first
    [ apply generate_asset_allocation_raises
    | apply generate_opportunities_raises
    | raises_only_step ].
Qed.

End Boundary.

Section BoundaryClaim.
Context `{PyRuntime}.

(** C9. Each of the five query operations is total at its boundary: for
    every input it returns a success envelope with a payload or a failure
    envelope with a message and never raises; whatever its computation
    raises is caught and comes back as a failure carrying the message of
    the cause. *)
Theorem C9_operations_total_at_boundary (self : IOTADeFiTool) :
  (∀ assets,
     total_at_boundary (get_market_data assets self)
       (get_market_data_body self assets) "Error getting market data: " self)
  ∧ (∀ min_apy assets,
       total_at_boundary (get_lending_pools min_apy assets self)
         (get_lending_pools_body self min_apy assets)
         "Error getting lending pools: " self)
  ∧ (∀ pool_id,
       total_at_boundary (get_risk_assessment pool_id self)
         (get_risk_assessment_body self pool_id)
         "Error getting risk assessment: " self)
  ∧ (∀ user_id,
       total_at_boundary (get_user_portfolio user_id self)
         (get_user_portfolio_body self user_id)
         "Error getting user portfolio: " self)
  ∧ (∀ risk_tolerance investment_horizon user_id,
       total_at_boundary
         (get_ai_investment_recommendations risk_tolerance investment_horizon
            user_id self)
         (get_ai_investment_recommendations_body self risk_tolerance
            investment_horizon user_id)
         "Error generating investment recommendations: " self).
Proof.
  repeat split; intros.
  - apply try_except_boundary, get_market_data_body_raises.
  - apply try_except_boundary, get_lending_pools_body_raises.
  - apply try_except_boundary, get_risk_assessment_body_raises.
  - apply try_except_boundary, get_user_portfolio_body_raises.
  - apply try_except_boundary, get_ai_investment_recommendations_body_raises.
Qed.

End BoundaryClaim.

(** C9 on two faults: an [assets] text that decodes to a number, and a
    tool without pools asked for recommendations. *)
Lemma C9_operations_total_at_boundary_witness :
  (get_market_data (PStr "5") (__init__ ∅)).1
  = Ok (fail_response
          "Error getting market data: argument of type 'int' is not iterable")
  ∧ (get_ai_investment_recommendations "moderate" "long" None
       (mk_tool "node" "explorer" (MarketData.mk [] [] (RiskMetrics.mk 0.42 0.31 0.89)) ∅)).1
    = Ok (fail_response "Error generating investment recommendations: ").
Proof.
  split.
  - destruct (proj1 (C9_operations_total_at_boundary (__init__ ∅)) (PStr "5"))
      as (r & Hcall & _ & _ & Hfault).
    rewrite Hcall. cbn [fst]. f_equal.
    apply (Hfault (mk_exn TypeError "argument of type 'int' is not iterable")).
    reflexivity.
  - set (self := mk_tool "node" "explorer" (MarketData.mk [] [] (RiskMetrics.mk 0.42 0.31 0.89)) ∅).
    destruct (proj2 (proj2 (proj2 (proj2 (C9_operations_total_at_boundary self))))
                "moderate" "long" None)
      as (r & Hcall & _ & _ & Hfault).
    rewrite Hcall. cbn [fst]. f_equal.
    apply (Hfault (mk_exn StopIteration EmptyString)).
    reflexivity.
Defined.

(** ** The model at work on concrete inputs *)

(** With the stored volatility the rounded percentages already add up to
    100 for every profile, so the rescaling is not entered. *)
Lemma stored_volatility_needs_no_rescale (r : risk_level) (h : horizon) :
  let '(s, i, o) := spec_clamped r h 0.42 in (s + i + o)%Z = 100%Z.
Proof. destruct r, h; reflexivity. Qed.

(** At volatility 0.06 a moderate/medium profile rounds to 41, 40, 20; the
    rescaling by 100/101 leaves the three values as they are, and the
    residual -1 goes to stablecoins, the largest share. *)
Example rescale_and_residual :
  clamped_allocation "moderate" "medium" 0.06
  = Ok [("stablecoins", 41%Z); ("IOTA", 40%Z); ("other_crypto", 20%Z)]
  ∧ _generate_asset_allocation "moderate" "medium" 0.06
    = Ok [("stablecoins", 40%Z); ("IOTA", 40%Z); ("other_crypto", 20%Z)].
Proof. split; reflexivity. Qed.

(** A text that decodes to the empty list asks for all assets; a text that
    does not decode is reported as such. *)
Example market_data_from_text :
  (get_market_data (PStr "[]") (__init__ ∅)).1
  = Ok (success_response (MarketData.assets stored_market_data))
  ∧ (get_market_data (PStr "[IOTA") (__init__ ∅)).1
    = Ok (fail_response "Invalid JSON format for assets parameter.").
Proof. split; reflexivity. Qed.

(** An unknown user has no portfolio, and the empty user id is refused. *)
Example user_portfolio_failures :
  (get_user_portfolio "unknown" (__init__ ∅)).1
  = Ok (fail_response "No portfolio found for user ID: unknown")
  ∧ (get_user_portfolio EmptyString (__init__ ∅)).1
    = Ok (fail_response "User ID is required").
Proof. split; reflexivity. Qed.

(** * Further properties of the code *)

(** ** The allocation is a partition of 100 *)




Section AllocationInvariant.
Context `{PyRuntime}.


End AllocationInvariant.

(** ** Profile names outside the tables *)

Section AllocationKeys.
Context `{PyRuntime}.


End AllocationKeys.


(** ** Recommendations depend on the pool table *)

Section PoolTable.
Context `{PyRuntime}.


(** A call with valid parameters: the allocation and the strategies are
    always produced, so the outcome is decided by the opportunities. *)
Lemma recommendations_valid_call (self : IOTADeFiTool)
    (r : risk_level) (h : horizon) (user_id : option string) :
  get_ai_investment_recommendations (risk_name r) (horizon_name h) user_id self
  = (match _generate_opportunities self (risk_name r) (horizon_name h) with
     | Ok opportunities =>
         Ok (success_response
               (Recommendations.mk
                  (allocation_dict
                     (spec_asset_allocation r h
                        (RiskMetrics.market_volatility
                           (MarketData.risk_metrics (market_data self)))))
                  (_generate_strategies (risk_name r) (horizon_name h)
                     (RiskMetrics.market_volatility
                        (MarketData.risk_metrics (market_data self))))
                  opportunities
                  ((λ p, PortfolioSpecific.mk
                           (_generate_rebalancing_advice p (risk_name r))
                           (_generate_risk_management_advice p
                              (RiskMetrics.market_volatility
                                 (MarketData.risk_metrics (market_data self)))))
                     <$> spec_loaded_portfolio self user_id)))
     | Raise e =>
         Ok (fail_response
               ("Error generating investment recommendations: " +:+ exn_str e))
     end, self).
Proof.
  unfold get_ai_investment_recommendations, get_ai_investment_recommendations_body.
  assert (Hr : bool_decide (risk_name r ∈ ["conservative"; "moderate"; "aggressive"])
               = true)
    by (apply bool_decide_eq_true, valid_risk_levels_names; eauto).
  assert (Hh : bool_decide (horizon_name h ∈ ["short"; "medium"; "long"]) = true)
    by (apply bool_decide_eq_true, valid_horizons_names; eauto).
  rewrite Hr, Hh. cbn [negb].
  rewrite generate_asset_allocation_spec. cbn [bind].
  pose proof (generate_opportunities_raises self (risk_name r) (horizon_name h))
    as Hraises.
  destruct (_generate_opportunities self (risk_name r) (horizon_name h))
    as [opportunities|e]; cbn [bind try_except].
  - do 3 f_equal. destruct user_id as [[|c u]|]; reflexivity.
  - rewrite (Hraises e eq_refl). reflexivity.
Qed.


(** The user id only decides the [portfolio_specific] entry: two
    successful calls for the same profile agree on the allocation, the
    strategies and the opportunities, and agree entirely when they load
    the same portfolio or none. *)
Theorem recommendations_personal_part (self : IOTADeFiTool)
    (r : risk_level) (h : horizon) (user_id user_id' : option string)
    (recs recs' : Recommendations.t) :
  get_ai_investment_recommendations (risk_name r) (horizon_name h) user_id self
  = (Ok (success_response recs), self) →
  get_ai_investment_recommendations (risk_name r) (horizon_name h) user_id' self
  = (Ok (success_response recs'), self) →
  Recommendations.asset_allocation recs = Recommendations.asset_allocation recs'
  ∧ Recommendations.strategies recs = Recommendations.strategies recs'
  ∧ Recommendations.specific_opportunities recs
    = Recommendations.specific_opportunities recs'
  ∧ (spec_loaded_portfolio self user_id = spec_loaded_portfolio self user_id' →
     recs = recs')
  ∧ (Recommendations.portfolio_specific recs = None
     ↔ spec_loaded_portfolio self user_id = None).
Proof.
  rewrite !recommendations_valid_call.
  destruct (_generate_opportunities self (risk_name r) (horizon_name h))
    as [opportunities|e]; [|discriminate].
  intros [= <-] [= <-]. cbn. repeat split; try reflexivity.
  - intros ->. reflexivity.
  - apply fmap_None.
  - apply fmap_None.
Qed.

End PoolTable.


(** Two calls on the stored data, without a user and with the stored one. *)
Lemma recommendations_personal_part_witness :
  ∃ recs recs',
    get_ai_investment_recommendations "moderate" "long" None (__init__ ∅)
    = (Ok (success_response recs), __init__ ∅)
    ∧ get_ai_investment_recommendations "moderate" "long" (Some "user_123") (__init__ ∅)
      = (Ok (success_response recs'), __init__ ∅)
    ∧ Recommendations.strategies recs = Recommendations.strategies recs'.
Proof.
  pose proof (recommendations_on_stored_market (__init__ ∅) Moderate Long None
                eq_refl) as Hcall.
  pose proof (recommendations_on_stored_market (__init__ ∅) Moderate Long
                (Some "user_123") eq_refl) as Hcall'.
  eexists _, _. split; [exact Hcall|]. split; [exact Hcall'|].
  apply (recommendations_personal_part (__init__ ∅) Moderate Long None
           (Some "user_123") _ _ Hcall Hcall').
Defined.

(** ** Strategies and advice *)

(** The names of the strategies for a valid profile: "Diversification"
    comes first and no name is repeated; "Dollar-Cost Averaging" is for
    conservative profiles with a horizon other than short, "Strategic
    Leverage" for aggressive profiles while the volatility is below 0.7,
    "Volatility Hedging" for everyone once it exceeds 0.6 (so both appear
    for an aggressive profile between 0.6 and 0.7); there are two to four
    strategies. *)
Theorem strategies_by_profile (r : risk_level) (h : horizon) (v : Q) :
  let names := Strategy.name <$> _generate_strategies (risk_name r) (horizon_name h) v in
  head names = Some "Diversification"
  ∧ NoDup names
  ∧ ("Dollar-Cost Averaging" ∈ names ↔ r = Conservative ∧ h ≠ Short)
  ∧ ("Strategic Leverage" ∈ names ↔ r = Aggressive ∧ (v < 0.7)%Q)
  ∧ ("Volatility Hedging" ∈ names ↔ (0.6 < v)%Q)
  ∧ (2 <= length names <= 4)%nat.
Proof.
  intros names. subst names. unfold _generate_strategies, Qgt_bool.
  destruct (Qlt_bool_spec v 0.7) as [Hlow|Hlow];
    destruct (Qlt_bool_spec 0.6 v) as [Hhigh|Hhigh];
    destruct r, h; cbn;
    (split; [reflexivity|]);
    (split; [repeat constructor; rewrite ?elem_of_cons, ?elem_of_nil;
             intuition discriminate|]);
    rewrite ?elem_of_cons, ?elem_of_nil;
    repeat split; intros; try lia; try (intuition (discriminate || congruence)).
Qed.

(** The rebalancing actions: "Reduce IOTA exposure" exactly for a
    conservative profile whose wallet holds more than 5000 IOTA, "Diversify
    lending positions" exactly when there are fewer than two lending
    positions, in that order; with neither, the list of actions is empty. *)
Theorem rebalancing_actions_by_portfolio (portfolio : UserPortfolio.t)
    (risk_tolerance : string) :
  let actions :=
    RebalancingAction.action
      <$> RebalancingAdvice.actions
            (_generate_rebalancing_advice portfolio risk_tolerance) in
  let heavy_in_iota :=
    ∃ amount, dict_lookup (UserPortfolio.wallet_balance portfolio) "IOTA" = Some amount
              ∧ (5000 < amount)%Q in
  let few_positions := (length (UserPortfolio.lending_positions portfolio) < 2)%nat in
  ("Reduce IOTA exposure" ∈ actions
   ↔ heavy_in_iota ∧ risk_tolerance = "conservative")
  ∧ ("Diversify lending positions" ∈ actions ↔ few_positions)
  ∧ (∀ a, a ∈ actions →
          a = "Reduce IOTA exposure" ∨ a = "Diversify lending positions")
  ∧ NoDup actions
  ∧ (actions = []
     ↔ ¬ (heavy_in_iota ∧ risk_tolerance = "conservative") ∧ ¬ few_positions).
Proof.
  intros actions heavy_in_iota few_positions.
  subst actions heavy_in_iota few_positions.
  unfold _generate_rebalancing_advice, Qgt_bool.
  cbn [RebalancingAdvice.actions].
  assert (Hheavy :
    (∃ amount, dict_lookup (UserPortfolio.wallet_balance portfolio) "IOTA"
               = Some amount ∧ (5000 < amount)%Q)
    ↔ match dict_lookup (UserPortfolio.wallet_balance portfolio) "IOTA" with
      | Some iota => Qlt_bool 5000 iota = true
      | None => False
      end).
  { destruct (dict_lookup _ _) as [iota|].
    - destruct (Qlt_bool_spec 5000 iota) as [Hlt|Hnlt]; split.
      + reflexivity.
      + eauto.
      + intros (amount & [= <-] & Hlt). contradiction.
      + discriminate.
    - split; [intros (amount & [=] & _)|intros []]. }
  rewrite Hheavy. clear Hheavy.
  destruct (dict_lookup _ _) as [iota|]; [destruct (Qlt_bool 5000 iota)|];
    destruct (String.eqb_spec risk_tolerance "conservative");
    destruct (Nat.ltb_spec (length (UserPortfolio.lending_positions portfolio)) 2);
    cbn;
    rewrite ?elem_of_cons, ?elem_of_nil;
    (split; [|split; [|split; [|split]]]);
    first
      [ solve [intuition (discriminate || congruence || lia)]
      | solve [intros a; rewrite ?elem_of_cons, ?elem_of_nil; tauto]
      | solve [repeat constructor; rewrite ?elem_of_cons, ?elem_of_nil;
               intuition discriminate] ].
Qed.

(** The risk-management recommendations are ordered by priority: one High
    entry per borrowing position whose collateral ratio is below 180,
    naming the borrowed asset, in the order of the positions; then a Medium
    entry when the volatility exceeds 0.4; then, always, one Low entry.
    The list is never empty. *)
Theorem risk_recommendations_by_priority (portfolio : UserPortfolio.t) (v : Q) :
  let advice := _generate_risk_management_advice portfolio v in
  let weak := List.filter undercollateralized
                (UserPortfolio.borrowing_positions portfolio) in
  ∃ medium,
    RiskRecommendation.priority <$> RiskManagementAdvice.recommendations advice
    = replicate (length weak) "High" ++ medium ++ ["Low"]
    ∧ (medium = ["Medium"] ∧ (0.4 < v)%Q ∨ medium = [] ∧ (v <= 0.4)%Q)
    ∧ take (length weak)
        (RiskRecommendation.description
           <$> RiskManagementAdvice.recommendations advice)
      = (λ position,
           "Add more collateral to your " +:+ BorrowingPosition.asset position
             +:+ " borrowing position to reduce liquidation risk") <$> weak
    ∧ (RiskManagementAdvice.current_health advice = "Good" ↔ (v < 0.5)%Q).
Proof.
  intros advice weak. subst advice weak.
  unfold _generate_risk_management_advice, Qgt_bool.
  cbn [RiskManagementAdvice.recommendations RiskManagementAdvice.current_health].
  set (positions := UserPortfolio.borrowing_positions portfolio).
  set (high := omap _ positions).
  assert (Hhigh :
    high
    = (λ position,
         RiskRecommendation.mk "High" "Increase collateral"
           ("Add more collateral to your " +:+ BorrowingPosition.asset position
              +:+ " borrowing position to reduce liquidation risk")
           "Current market volatility increases the risk of liquidation for positions with lower collateral ratios")
        <$> List.filter undercollateralized positions).
  { subst high. induction positions as [|p positions IH]; [reflexivity|].
    cbn [omap list_omap List.filter].
    destruct (undercollateralized p) eqn:Hweak; unfold undercollateralized in Hweak;
      destruct (BorrowingPosition.collateral p) as [c|]; try discriminate;
      rewrite ?Hweak; cbn [fmap list_fmap]; rewrite IH; reflexivity. }
  assert (Hpriority :
    RiskRecommendation.priority <$> high
    = replicate (length (List.filter undercollateralized positions)) "High").
  { rewrite Hhigh, <- list_fmap_compose. clear Hhigh.
    generalize (List.filter undercollateralized positions) as weak.
    intros weak. induction weak as [|p weak IH]; [reflexivity|].
    cbn. rewrite IH. reflexivity. }
  assert (Hdescription :
    RiskRecommendation.description <$> high
    = (λ position,
         "Add more collateral to your " +:+ BorrowingPosition.asset position
           +:+ " borrowing position to reduce liquidation risk")
        <$> List.filter undercollateralized positions).
  { rewrite Hhigh, <- list_fmap_compose. reflexivity. }
  assert (Hlength : length high = length (List.filter undercollateralized positions)).
  { rewrite Hhigh. apply length_fmap. }
  clear Hhigh.
  clearbody high.
  exists (if Qlt_bool 0.4 v then ["Medium"] else []).
  split; [|split; [|split]].
  - destruct (Qlt_bool 0.4 v); rewrite !fmap_app, Hpriority; try reflexivity.
    rewrite <- app_assoc. reflexivity.
  - destruct (Qlt_bool_spec 0.4 v) as [Hv|Hv%Qnot_lt_le]; tauto.
  - rewrite <- Hlength. 
    destruct (Qlt_bool 0.4 v); rewrite !fmap_app, <- ?app_assoc;
      rewrite <- (length_fmap RiskRecommendation.description high);
      rewrite take_app_length; exact Hdescription.
  - destruct (Qlt_bool_spec v 0.5) as [Hv|Hv]; split; try tauto; discriminate.
Qed.

(** ** Text in place of a list *)

Lemma try_except_success {A} (body : result (ToolResult A)) (catches : exn → bool)
    (message : exn → string) (data : A) :
  try_except body catches (λ e, Ok (fail_response (message e)))
  = Ok (success_response data) →
  body = Ok (success_response data).
Proof.
  destruct body as [r|e]; cbn [try_except]; [trivial|].
  destruct (catches e); discriminate.
Qed.

Section TextAssets.
Context `{PyRuntime}.

Lemma with_parsed_assets_success {A} (assets : pyval)
    (k : pyval → result (ToolResult A)) (data : A) :
  with_parsed_assets assets k = Ok (success_response data) →
  ∃ v, k v = Ok (success_response data).
Proof.
  unfold with_parsed_assets. destruct assets; eauto.
  destruct (json_loads s) as [v|e]; eauto.
  destruct (isinstance_JSONDecodeError e); discriminate.
Qed.

(** An [assets] argument given as text is decoded once, by [json.loads]:
    when the text decodes to something that is not itself text, both
    filtering queries answer as for the decoded value; when it is not valid
    JSON they fail with "Invalid JSON format for assets parameter." before
    looking at anything else, whatever [min_apy] is. *)
Theorem assets_text_is_decoded_once (self : IOTADeFiTool) (text : string) :
  (∀ v, json_loads text = Ok v → (∀ s, v ≠ PStr s) →
        get_market_data (PStr text) self = get_market_data v self
        ∧ ∀ min_apy,
            get_lending_pools min_apy (PStr text) self
            = get_lending_pools min_apy v self)
  ∧ (∀ e, json_loads text = Raise e → isinstance_JSONDecodeError e = true →
          get_market_data (PStr text) self
          = (Ok (fail_response "Invalid JSON format for assets parameter."), self)
          ∧ ∀ min_apy,
              get_lending_pools min_apy (PStr text) self
              = (Ok (fail_response "Invalid JSON format for assets parameter."),
                 self)).
Proof.
  split.
  - intros v Hloads Hv.
    unfold get_market_data, get_market_data_body, get_lending_pools,
      get_lending_pools_body, with_parsed_assets.
    rewrite Hloads. destruct v; try (split; reflexivity).
    exfalso. exact (Hv s eq_refl).
  - intros e Hloads He.
    unfold get_market_data, get_market_data_body, get_lending_pools,
      get_lending_pools_body, with_parsed_assets.
    rewrite Hloads, He. split; reflexivity.
Qed.

End TextAssets.

(** The empty JSON list and a text that is not JSON, on the stored data. *)
Lemma assets_text_is_decoded_once_witness :
  get_market_data (PStr "[]") (__init__ ∅) = get_market_data (PList []) (__init__ ∅)
  ∧ get_lending_pools (PInt 5) (PStr "[IOTA") (__init__ ∅)
    = (Ok (fail_response "Invalid JSON format for assets parameter."), __init__ ∅).
Proof.
  split.
  - apply (proj1 (assets_text_is_decoded_once (__init__ ∅) "[]") (PList []));
      [reflexivity|discriminate].
  - apply (proj2 (assets_text_is_decoded_once (__init__ ∅) "[IOTA")
             (mk_exn JSONDecodeError "Expecting value")); reflexivity.
Defined.

(** ** What a successful filtering query can return *)

Lemma filterM_sublist {A} (p : A → result bool) (l kept : list A) :
  filterM p l = Ok kept → kept `sublist_of` l.
Proof.
  revert kept. induction l as [|x l IH]; intros kept; cbn [filterM].
  - intros [= <-]. constructor.
  - destruct (p x) as [b|e]; cbn [bind]; [|discriminate].
    destruct (filterM p l) as [r|e]; cbn [bind]; [|discriminate].
    intros [= <-]. specialize (IH r eq_refl).
    destruct b; [apply sublist_skip|apply sublist_cons]; exact IH.
Qed.

Section Returned.
Context `{PyRuntime}.

(** Whatever is passed as [assets] (a list, text, a number, nothing), a
    successful [get_market_data] returns stored assets only, each at most
    once and in stored order; and it returns no asset only when none is
    stored. *)
Theorem market_data_returns_stored_assets (self : IOTADeFiTool) (assets : pyval)
    (data : list Asset.t) :
  (get_market_data assets self).1 = Ok (success_response data) →
  data `sublist_of` MarketData.assets (market_data self)
  ∧ (data = [] → MarketData.assets (market_data self) = []).
Proof.
  unfold get_market_data. cbn [fst]. intros Hcall.
  apply try_except_success in Hcall. unfold get_market_data_body in Hcall.
  apply with_parsed_assets_success in Hcall as [v Hk]. cbv beta in Hk.
  destruct (truthy v); cbn [negb] in Hk.
  - destruct (filterM _ _) as [filtered|e] eqn:Hfilter; cbn [bind] in Hk;
      [|discriminate].
    apply filterM_sublist in Hfilter.
    destruct filtered as [|a filtered]; [discriminate|].
    injection Hk as <-. split; [exact Hfilter|discriminate].
  - injection Hk as <-. split; [reflexivity|trivial].
Qed.

(** Whatever is passed as [min_apy] and [assets], a successful
    [get_lending_pools] returns at least one pool, and only stored pools,
    each at most once and in stored order. *)
Theorem lending_pools_returns_stored_pools (self : IOTADeFiTool)
    (min_apy assets : pyval) (pools : list LendingPool.t) :
  (get_lending_pools min_apy assets self).1 = Ok (success_response pools) →
  pools ≠ [] ∧ pools `sublist_of` MarketData.lending_pools (market_data self).
Proof.
  unfold get_lending_pools. cbn [fst]. intros Hcall.
  apply try_except_success in Hcall. unfold get_lending_pools_body in Hcall.
  apply with_parsed_assets_success in Hcall as [v Hk]. cbv beta zeta in Hk.
  set (stored := MarketData.lending_pools (market_data self)) in *.
  assert (Hfirst : ∀ first,
             match min_apy with
             | PNone => Ok stored
             | _ => pools_with_min_apy min_apy stored
             end = Ok first → first `sublist_of` stored).
  { intros first. unfold pools_with_min_apy.
    destruct min_apy; try apply filterM_sublist. intros [= <-]. reflexivity. }
  destruct (match min_apy with PNone => _ | _ => _ end) as [first|e];
    cbn [bind] in Hk; [|discriminate].
  specialize (Hfirst first eq_refl).
  assert (Hsecond : ∀ second,
             (if truthy v then pools_with_assets v first else Ok first) = Ok second →
             second `sublist_of` first).
  { intros second. unfold pools_with_assets.
    destruct (truthy v); [apply filterM_sublist|]. intros [= <-]. reflexivity. }
  destruct (if truthy v then _ else _) as [second|e]; cbn [bind] in Hk;
    [|discriminate].
  specialize (Hsecond second eq_refl).
  destruct second as [|pool second]; [discriminate|].
  injection Hk as <-. split; [discriminate|].
  etransitivity; eassumption.
Qed.

End Returned.

(** On the stored data, with a list naming one asset and with [min_apy=5]. *)
Lemma market_data_returns_stored_assets_witness :
  [Asset.mk "BTC" 63245.78 (-1.23) 1234567890123]
    `sublist_of` MarketData.assets (market_data (__init__ ∅)).
Proof.
  refine (proj1 (market_data_returns_stored_assets (__init__ ∅)
                   (symbols_arg ["BTC"]) _ _)).
  reflexivity.
Defined.

Lemma lending_pools_returns_stored_pools_witness :
  [stored_pool_2] ≠ []
  ∧ [stored_pool_2] `sublist_of` MarketData.lending_pools (market_data (__init__ ∅)).
Proof.
  refine (lending_pools_returns_stored_pools (__init__ ∅) (PInt 5) PNone _ _).
  reflexivity.
Defined.

(** ** Combining the filters of [get_lending_pools] *)


Section ComposeFilters.
Context `{PyRuntime}.

Lemma returned_lending_pools (self : IOTADeFiTool) (min_apy : pyval)
    (symbols : option (list string)) :
  min_apy = PNone ∨ is_Some (as_number min_apy) →
  returned (get_lending_pools min_apy (optional_symbols_arg symbols) self)
  = List.filter (spec_pool_retained (as_number min_apy) symbols)
      (MarketData.lending_pools (market_data self)).
Proof.
  intros Hmin. rewrite (get_lending_pools_typed self min_apy symbols Hmin).
  unfold returned. cbn [fst]. destruct (List.filter _ _); reflexivity.
Qed.

(** The two filters are independent: a pool is returned for a [min_apy]
    and a list of symbols exactly when it is returned for the [min_apy]
    alone and for the symbols alone. *)
Theorem lending_pools_filters_compose (self : IOTADeFiTool) (min_apy : pyval)
    (symbols : option (list string)) (pool : LendingPool.t) :
  min_apy = PNone ∨ is_Some (as_number min_apy) →
  pool ∈ returned (get_lending_pools min_apy (optional_symbols_arg symbols) self)
  ↔ pool ∈ returned (get_lending_pools min_apy PNone self)
    ∧ pool ∈ returned (get_lending_pools PNone (optional_symbols_arg symbols) self).
Proof.
  intros Hmin.
  change (get_lending_pools min_apy PNone self)
    with (get_lending_pools min_apy (optional_symbols_arg None) self).
  rewrite !returned_lending_pools by (assumption || (left; reflexivity)).
  rewrite !list_elem_of_In, !filter_In.
  unfold spec_pool_retained. cbn [as_number]. rewrite !andb_true_iff. tauto.
Qed.


End ComposeFilters.

(** On the stored pools: [min_apy=5] with the symbol BTC, and the bounds 4
    and 5. *)
Lemma lending_pools_filters_compose_witness :
  stored_pool_2 ∈ returned (get_lending_pools (PInt 5) (symbols_arg ["BTC"]) (__init__ ∅)).
Proof.
  apply (lending_pools_filters_compose (__init__ ∅) (PInt 5) (Some ["BTC"])).
  - right. eexists. reflexivity.
  - split; vm_compute; apply list_elem_of_here.
Defined.


(** ** [min_apy] in other shapes *)

Section MinApyShapes.
Context `{PyRuntime}.

Lemma pools_with_assets_optional (symbols : option (list string))
    (pools : list LendingPool.t) :
  (if truthy (optional_symbols_arg symbols)
   then pools_with_assets (optional_symbols_arg symbols) pools
   else Ok pools)
  = Ok (List.filter (spec_pool_retained None symbols) pools).
Proof.
  unfold spec_pool_retained. cbn [andb].
  destruct symbols as [[|s symbols]|]; cbn [optional_symbols_arg];
    rewrite ?truthy_symbols_arg; cbn [truthy];
    rewrite ?filter_all; try reflexivity.
  apply pools_with_assets_symbols.
Qed.

(** [get_lending_pools] for any [min_apy] that [float] accepts. *)
Lemma get_lending_pools_float (self : IOTADeFiTool) (min_apy : pyval) (m : pyfloat)
    (symbols : option (list string)) :
  min_apy ≠ PNone → py_float min_apy = Ok m →
  get_lending_pools min_apy (optional_symbols_arg symbols) self
  = (Ok match
          List.filter
            (λ pool, float_ge (Finite (LendingPool.apy pool)) m
                     && spec_pool_retained None symbols pool)
            (MarketData.lending_pools (market_data self))
        with
        | [] =>
            fail_response
              ("No lending pools found with filters: "
                 +:+ String.concat ", " (spec_applied_filters min_apy symbols))
        | retained => success_response retained
        end,
     self).
Proof.
  intros Hgiven Hfloat.
  unfold get_lending_pools, get_lending_pools_body.
  set (pools := MarketData.lending_pools (market_data self)).
  assert (Hparsed : ∀ k : pyval → result (ToolResult (list LendingPool.t)),
             with_parsed_assets (optional_symbols_arg symbols) k
             = k (optional_symbols_arg symbols))
    by (intros k; destruct symbols; reflexivity).
  rewrite Hparsed. clear Hparsed.
  assert (Hfirst :
    match min_apy with
    | PNone => Ok pools
    | _ => pools_with_min_apy min_apy pools
    end
    = Ok (List.filter (λ pool, float_ge (Finite (LendingPool.apy pool)) m) pools)).
  { transitivity (pools_with_min_apy min_apy pools);
      [destruct min_apy; congruence|].
    unfold pools_with_min_apy.
    rewrite (filterM_ext _ (λ pool, Ok (float_ge (Finite (LendingPool.apy pool)) m)))
      by (intros pool; rewrite Hfloat; reflexivity).
    apply filterM_pure. }
  rewrite Hfirst. cbn [bind]. clear Hfirst.
  rewrite pools_with_assets_optional, filter_filter_andb. cbn [bind].
  destruct (List.filter _ pools) as [|pool retained]; cbn [try_except];
    [|reflexivity].
  do 4 f_equal. unfold spec_applied_filters.
  destruct min_apy; destruct symbols as [[|sym symbols]|]; reflexivity.
Qed.

(** A [min_apy] given as text, as an XML attribute is, goes through
    [float]: text that reads as a finite number selects the pools that
    number selects; text that does not read as a number makes the call fail
    with the conversion error, provided there is a pool to compare with. *)
Theorem lending_pools_min_apy_text (self : IOTADeFiTool) (text : string)
    (symbols : option (list string)) :
  (∀ q, float_of_str text = Some (Finite q) →
        returned (get_lending_pools (PStr text) (optional_symbols_arg symbols) self)
        = returned (get_lending_pools (PFloat (Finite q))
                      (optional_symbols_arg symbols) self))
  ∧ (float_of_str text = None →
     MarketData.lending_pools (market_data self) ≠ [] →
     get_lending_pools (PStr text) (optional_symbols_arg symbols) self
     = (Ok (fail_response
              ("Error getting lending pools: could not convert string to float: "
                 +:+ py_repr (PStr text))),
        self)).
Proof.
  split.
  - intros q Htext.
    rewrite (get_lending_pools_float self (PStr text) (Finite q) symbols)
      by (try discriminate; cbn [py_float]; rewrite Htext; reflexivity).
    rewrite (get_lending_pools_float self (PFloat (Finite q)) (Finite q) symbols)
      by (try discriminate; reflexivity).
    unfold returned. cbn [fst]. destruct (List.filter _ _); reflexivity.
  - intros Htext Hpools.
    unfold get_lending_pools, get_lending_pools_body, pools_with_min_apy.
    destruct (MarketData.lending_pools (market_data self)) as [|pool pools];
      [congruence|].
    assert (Hparsed : ∀ k : pyval → result (ToolResult (list LendingPool.t)),
               with_parsed_assets (optional_symbols_arg symbols) k
               = k (optional_symbols_arg symbols))
      by (intros k; destruct symbols; reflexivity).
    rewrite Hparsed. cbn [filterM py_float]. rewrite Htext. reflexivity.
Qed.

(** A [min_apy] that is NaN or positive infinity is above every apy: the
    call fails with the no-pools message, whatever is stored. *)
Theorem lending_pools_unreachable_min_apy (self : IOTADeFiTool) (min_apy : pyval)
    (symbols : option (list string)) :
  py_float min_apy = Ok NaN ∨ py_float min_apy = Ok PosInf →
  min_apy ≠ PNone →
  get_lending_pools min_apy (optional_symbols_arg symbols) self
  = (Ok (fail_response
           ("No lending pools found with filters: "
              +:+ String.concat ", " (spec_applied_filters min_apy symbols))),
     self).
Proof.
  intros Hfloat Hgiven.
  assert (Hnone : ∀ m, m = NaN ∨ m = PosInf →
            List.filter
              (λ pool, float_ge (Finite (LendingPool.apy pool)) m
                       && spec_pool_retained None symbols pool)
              (MarketData.lending_pools (market_data self)) = []).
  { intros m Hm. apply filter_nil_iff. intros pool _.
    destruct Hm as [-> | ->]; reflexivity. }
  destruct Hfloat as [Hfloat|Hfloat];
    rewrite (get_lending_pools_float self min_apy _ symbols Hgiven Hfloat),
      Hnone by tauto; reflexivity.
Qed.

(** With no pool stored nothing is converted or compared: every call, also
    one with a [min_apy] that [float] would reject, fails with the no-pools
    message. *)
Theorem lending_pools_empty_table (self : IOTADeFiTool) (min_apy : pyval)
    (symbols : option (list string)) :
  MarketData.lending_pools (market_data self) = [] →
  get_lending_pools min_apy (optional_symbols_arg symbols) self
  = (Ok (fail_response
           ("No lending pools found with filters: "
              +:+ String.concat ", " (spec_applied_filters min_apy symbols))),
     self).
Proof.
  intros Hempty.
  unfold get_lending_pools, get_lending_pools_body, pools_with_min_apy.
  assert (Hparsed : ∀ k : pyval → result (ToolResult (list LendingPool.t)),
             with_parsed_assets (optional_symbols_arg symbols) k
             = k (optional_symbols_arg symbols))
    by (intros k; destruct symbols; reflexivity).
  rewrite Hparsed, Hempty.
  assert (Hfirst :
    match min_apy with
    | PNone => Ok []
    | _ =>
        filterM (λ pool : LendingPool.t,
            let* m := py_float min_apy in
            Ok (float_ge (Finite (LendingPool.apy pool)) m)) []
    end = Ok []) by (destruct min_apy; reflexivity).
  rewrite Hfirst. cbn [bind].
  rewrite pools_with_assets_optional. cbn [List.filter bind try_except].
  do 4 f_equal. unfold spec_applied_filters.
  destruct min_apy; destruct symbols as [[|sym symbols]|]; reflexivity.
Qed.

End MinApyShapes.

(** The text "5" read as 5, and a text that is no number, on the stored
    pools. *)
Lemma lending_pools_min_apy_text_witness :
  returned (@get_lending_pools reading_runtime (PStr "5") PNone (__init__ ∅))
  = [stored_pool_2]
  ∧ (get_lending_pools (PStr "high") PNone (__init__ ∅)).1
    = Ok (fail_response
            "Error getting lending pools: could not convert string to float: <str>").
Proof.
  split.
  - rewrite (proj1 (@lending_pools_min_apy_text reading_runtime (__init__ ∅) "5" None)
               5%Q eq_refl).
    reflexivity.
  - pose proof (proj2 (lending_pools_min_apy_text (__init__ ∅) "high" None)
                  eq_refl ltac:(discriminate)) as Hcall.
    change (optional_symbols_arg None) with PNone in Hcall.
    rewrite Hcall. reflexivity.
Defined.

(** NaN on the stored pools. *)
Lemma lending_pools_unreachable_min_apy_witness :
  (get_lending_pools (PFloat NaN) PNone (__init__ ∅)).1
  = Ok (fail_response "No lending pools found with filters: min_apy=<float>").
Proof.
  pose proof (lending_pools_unreachable_min_apy (__init__ ∅) (PFloat NaN) None
                ltac:(left; reflexivity) ltac:(discriminate)) as Hcall.
  change (optional_symbols_arg None) with PNone in Hcall.
  rewrite Hcall. reflexivity.
Defined.

(** A tool without pools, asked with a [min_apy] that is no number. *)
Lemma lending_pools_empty_table_witness :
  (get_lending_pools (PStr "high") PNone
     (mk_tool "node" "explorer" (MarketData.mk [] [] (RiskMetrics.mk 0.42 0.31 0.89)) ∅)).1
  = Ok (fail_response "No lending pools found with filters: min_apy=high").
Proof.
  pose proof (lending_pools_empty_table
                (mk_tool "node" "explorer"
                   (MarketData.mk [] [] (RiskMetrics.mk 0.42 0.31 0.89)) ∅)
                (PStr "high") None eq_refl) as Hcall.
  change (optional_symbols_arg None) with PNone in Hcall.
  rewrite Hcall. reflexivity.
Defined.

(** ** The portfolio query *)



(** In the price dictionary the last stored entry of a symbol wins, and a
    symbol that no stored asset carries has no entry. *)
Theorem asset_prices_last_entry_wins (before after : list Asset.t) (asset : Asset.t)
    (sym : string) :
  (Asset.symbol asset ∉ Asset.symbol <$> after →
   asset_prices_of (before ++ asset :: after) !! Asset.symbol asset
   = Some (Asset.price_usd asset))
  ∧ (sym ∉ Asset.symbol <$> before →
     asset_prices_of before !! sym = None).
Proof.
  unfold asset_prices_of. split.
  - intros Hlast. rewrite foldl_app. cbn [foldl].
    set (m := <[Asset.symbol asset:=Asset.price_usd asset]> _).
    assert (Hm : m !! Asset.symbol asset = Some (Asset.price_usd asset))
      by apply lookup_insert_eq.
    clearbody m. revert m Hm.
    induction after as [|a after IH]; intros m Hm; [exact Hm|].
    cbn [foldl]. cbn [fmap list_fmap] in Hlast.
    apply not_elem_of_cons in Hlast as [Hne Hrest].
    apply IH; [exact Hrest|]. rewrite lookup_insert_ne by congruence. exact Hm.
  - intros Hfresh.
    induction before as [|a before IH] using rev_ind; [apply lookup_empty|].
    rewrite fmap_app, not_elem_of_app in Hfresh. destruct Hfresh as [Hrest Hlast].
    cbn [fmap list_fmap] in Hlast. apply not_elem_of_cons in Hlast as [Hne _].
    rewrite foldl_snoc, lookup_insert_ne by congruence. apply IH, Hrest.
Qed.

Lemma asset_prices_last_entry_wins_witness :
  asset_prices_of
    ([Asset.mk "IOTA" 0.1452 2.34 403782401]
       ++ Asset.mk "IOTA" 0.15 0 0 :: [Asset.mk "BTC" 63245.78 (-1.23) 1234567890123])
    !! "IOTA" = Some 0.15%Q
  ∧ asset_prices_of (MarketData.assets stored_market_data) !! "USDT" = None.
Proof.
  split.
  - apply (proj1 (asset_prices_last_entry_wins
                    [Asset.mk "IOTA" 0.1452 2.34 403782401]
                    [Asset.mk "BTC" 63245.78 (-1.23) 1234567890123]
                    (Asset.mk "IOTA" 0.15 0 0) "IOTA")).
    cbn. rewrite elem_of_cons, elem_of_nil. intros [?|[]]. discriminate.
  - apply (proj2 (asset_prices_last_entry_wins
                    (MarketData.assets stored_market_data) []
                    (Asset.mk "IOTA" 0.15 0 0) "USDT")).
    cbn. rewrite !elem_of_cons, elem_of_nil. intros [?|[?|[?|[]]]]; discriminate.
Defined.







(** ** [assets] in other shapes *)

Lemma prefix_spec (s t : string) :
  String.prefix s t = true ↔ ∃ post, t = s +:+ post.
Proof.
  revert t. induction s as [|c s IH]; intros t; destruct t as [|d t];
    cbn [String.prefix String.append].
  - split; [intros _; exists EmptyString; reflexivity|reflexivity].
  - split; [intros _; exists (String d t); reflexivity|reflexivity].
  - split; [discriminate|intros [post [=]]].
  - destruct (Ascii.ascii_dec c d) as [->|Hne].
    + rewrite IH. split; intros [post Hpost]; exists post.
      * rewrite Hpost. reflexivity.
      * change (String d t = String d (s +:+ post)) in Hpost. congruence.
    + split; [discriminate|].
      intros [post Hpost]. change (String d t = String c (s +:+ post)) in Hpost.
      congruence.
Qed.

(** [needle in hay] on strings holds when [needle] occurs in [hay]. *)
Lemma py_str_contains_spec (needle hay : string) :
  py_str_contains needle hay = true ↔ ∃ pre post, hay = pre +:+ needle +:+ post.
Proof.
  induction hay as [|c hay IH]; cbn [py_str_contains]; rewrite orb_true_iff, prefix_spec.
  - split.
    + intros [[post Hpost]|[=]]. exists EmptyString, post. exact Hpost.
    + intros (pre & post & Hhay). left.
      destruct pre; [eauto|discriminate].
  - rewrite IH. split.
    + intros [[post Hpost]|(pre & post & ->)].
      * exists EmptyString, post. exact Hpost.
      * exists (String c pre), post. reflexivity.
    + intros ([|d pre] & post & Hhay).
      * left. eauto.
      * right. injection Hhay as -> ->. eauto.
Qed.

Section UntypedAssets.
Context `{PyRuntime}.

(** An [assets] argument that is neither a list nor text: every value that
    counts as false ([None], [False], 0, 0.0, an empty dictionary) asks for
    all assets; a number or [True] makes the membership test fail, and the
    call reports that [TypeError], unless no asset is stored, in which case
    nothing is tested and the no-data failure is returned. *)
Theorem market_data_untyped_assets (self : IOTADeFiTool) (assets : pyval) :
  (∀ s, assets ≠ PStr s) →
  let stored := MarketData.assets (market_data self) in
  (truthy assets = false →
   get_market_data assets self = (Ok (success_response stored), self))
  ∧ (truthy assets = true → is_scalar assets = true → stored ≠ [] →
     get_market_data assets self
     = (Ok (fail_response
              ("Error getting market data: argument of type '"
                 +:+ type_name assets +:+ "' is not iterable")),
        self))
  ∧ (truthy assets = true → stored = [] →
     get_market_data assets self
     = (Ok (fail_response ("No data found for assets: " +:+ py_str assets)), self)).
Proof.
  intros Htext stored.
  assert (Hparsed : ∀ k : pyval → result (ToolResult (list Asset.t)),
             with_parsed_assets assets k = k assets).
  { intros k. destruct assets; try reflexivity. exfalso. exact (Htext s eq_refl). }
  unfold get_market_data, get_market_data_body. rewrite Hparsed. fold stored.
  split; [|split].
  - intros ->. reflexivity.
  - intros -> Hscalar Hstored. cbn [negb].
    destruct stored as [|asset stored']; [congruence|].
    destruct assets; try discriminate; reflexivity.
  - intros -> ->. reflexivity.
Qed.

(** When the text decodes to a string, the symbols are looked for inside
    it: an asset is returned exactly when it is stored and its symbol
    occurs in the decoded string. *)
Theorem market_data_decoded_string (self : IOTADeFiTool) (text decoded : string)
    (asset : Asset.t) :
  json_loads text = Ok (PStr decoded) → decoded ≠ EmptyString →
  asset ∈ returned (get_market_data (PStr text) self)
  ↔ asset ∈ MarketData.assets (market_data self)
    ∧ ∃ pre post, decoded = pre +:+ Asset.symbol asset +:+ post.
Proof.
  intros Hloads Hdecoded.
  unfold get_market_data, get_market_data_body, with_parsed_assets.
  rewrite Hloads. cbn [truthy]. apply String.eqb_neq in Hdecoded.
  rewrite Hdecoded. cbn [negb py_in].
  rewrite filterM_pure. cbn [bind].
  rewrite <- py_str_contains_spec.
  set (found := List.filter _ _).
  assert (Hreturned :
    returned (try_except
                match found with
                | [] => Ok (fail_response
                              ("No data found for assets: " +:+ py_str (PStr decoded)))
                | _ => Ok (success_response found)
                end isinstance_Exception
                (λ e, Ok (fail_response ("Error getting market data: " +:+ exn_str e))),
              self) = found)
    by (destruct found; reflexivity).
  rewrite Hreturned. unfold found.
  rewrite !list_elem_of_In, filter_In. reflexivity.
Qed.

End UntypedAssets.

(** The number 5 and the number 0 on the stored assets. *)
Lemma market_data_untyped_assets_witness :
  (get_market_data (PInt 0) (__init__ ∅)).1
  = Ok (success_response (MarketData.assets stored_market_data))
  ∧ (get_market_data (PInt 5) (__init__ ∅)).1
    = Ok (fail_response
            "Error getting market data: argument of type 'int' is not iterable").
Proof.
  pose proof (market_data_untyped_assets (__init__ ∅) (PInt 0) ltac:(discriminate))
    as (Hzero & _).
  pose proof (market_data_untyped_assets (__init__ ∅) (PInt 5) ltac:(discriminate))
    as (_ & Hfive & _).
  split.
  - rewrite (Hzero eq_refl). reflexivity.
  - rewrite (Hfive eq_refl eq_refl ltac:(discriminate)). reflexivity.
Defined.

(** The text of the string IOTA,BTC on the stored assets: BTC is found in
    it. *)
Lemma market_data_decoded_string_witness :
  Asset.mk "BTC" 63245.78 (-1.23) 1234567890123
    ∈ returned (@get_market_data reading_runtime (PStr quoted_symbols_text) (__init__ ∅)).
Proof.
  apply (@market_data_decoded_string reading_runtime (__init__ ∅)
           quoted_symbols_text "IOTA,BTC").
  - reflexivity.
  - discriminate.
  - split.
    + cbn. rewrite !elem_of_cons. tauto.
    + exists "IOTA,", EmptyString. reflexivity.
Defined.

(** ** Valuations of non-negative data *)





